(** * qdrant-mcp: the memory tools and their vector-store client

    A shallow embedding of [src/client.ts] (class [QdrantHttpClient]) and
    [src/server.ts] (class [QdrantMCPServer]), with the properties of the
    specification stated over it.

    The program is asynchronous TypeScript.  Every [await] is a sequence
    point and nothing runs in between, so an invocation is a sequential
    computation over the outside world: the vector store reached through
    [fetch], the embedding provider, and the clock.  The outside world is
    a parameter ([Host]); the computation threads it together with a log
    of the network calls issued so far. *)

From Stdlib Require Import String Ascii List ZArith Lia Bool DecimalString DecimalZ DecimalPos.
Import ListNotations.
Local Open Scope list_scope.
Local Open Scope string_scope.
Set Warnings "-register-all,-notation-for-abbreviation".

(** ** Values exchanged with the remote services *)

(** A value produced by [JSON.parse] (or about to be serialised).  The
    fields of [JObj] are the object's own properties in enumeration
    order, with distinct keys.  [num] is the runtime's number type. *)
Inductive json (num : Type) : Type :=
| JNull
| JBool (b : bool)
| JNum (n : num)
| JStr (s : string)
| JArr (xs : list (json num))
| JObj (fields : list (string * json num)).

Arguments JNull {num}.
Arguments JBool {num} b.
Arguments JNum {num} n.
Arguments JStr {num} s.
Arguments JArr {num} xs.
Arguments JObj {num} fields.

(** What a JavaScript [throw] (or a rejected promise) carries. *)
Inductive exn : Type :=
| Error (message : string)        (* new Error(message) *)
| TypeError (message : string)    (* raised by the runtime itself *)
| HostError (message : string)    (* an Error instance coming from fetch,
                                     response.json() or the embedding client *)
| Thrown (rendering : string).    (* a thrown value that is not an Error,
                                     with its String() rendering *)

(** The part of the JavaScript runtime the program relies on and that is
    not modelled here: IEEE numbers and their renderings, [JSON.stringify]
    and [Date.prototype.toISOString]. *)
Class JsRuntime : Type := {
  num : Type;
  num_of_Z : Z -> num;                      (* an integer as a number *)
  num_is_zero : num -> bool;                (* n === 0; parsed numbers are never NaN *)
  Number_toString : num -> string;          (* String(n) *)
  Number_toFixed : num -> nat -> string;    (* n.toFixed(d) *)
  JSON_stringify : json num -> string;      (* JSON.stringify(v) *)
  JSON_stringify_indent : json num -> nat -> string;  (* JSON.stringify(v, null, k) *)
  Date_toISOString : Z -> string;           (* new Date(ms).toISOString() *)
  (* +0 and -0 render alike, so (n || 0).toFixed(d) is n.toFixed(d) *)
  toFixed_zero : forall n d,
    num_is_zero n = true -> Number_toFixed n d = Number_toFixed (num_of_Z 0) d
}.

(** [response] objects as the client reads them: [ok], [status],
    [statusText] and the outcome of [await response.json()]. *)
Record Response `{JsRuntime} : Type := {
  ok : bool;
  status : Z;
  statusText : string;
  json_body : exn + json num
}.

(** The [RequestInit] argument of [fetch]. *)
Record RequestInit : Type := {
  method : option string;
  headers : option (list (string * string));
  body : option string
}.

(** A network call, as it leaves the process. *)
Inductive Event : Type :=
| EmbeddingCall (model input : string)
| FetchCall (url : string) (init : RequestInit).

(** The outside world.  Each call may answer or reject, and may change
    the world (the store remembers what was written). *)
Class Host `{JsRuntime} : Type := {
  world : Type;
  fetch : string -> RequestInit -> world -> (exn + Response) * world;
  embeddings_create : string -> string -> world -> (exn + list (list num)) * world;
  Date_now : world -> Z * world
}.

(** ** JavaScript operations on values *)

Section Values.
Context `{R : JsRuntime}.

Notation value := (json num).

(** ToBoolean.  [None] stands for [undefined]. *)
Definition truthy (v : value) : bool :=
  match v with
  | JNull => false
  | JBool b => b
  | JNum n => negb (num_is_zero n)
  | JStr s => negb (s =? "")
  | JArr _ | JObj _ => true
  end.

(** Truthiness of an optional string ([undefined] and [""] are falsy). *)
Definition truthy_str (s : option string) : bool :=
  match s with
  | Some x => negb (x =? "")
  | None => false
  end.

(** [a || b] on optional strings. *)
Definition or_str (a b : option string) : option string :=
  if truthy_str a then a else b.

(** [a || 'literal'] on an optional string. *)
Definition or_default (a : option string) (b : string) : string :=
  match a with
  | Some x => if negb (x =? "") then x else b
  | None => b
  end.

(** The left operand of [a || b] when it decides the result. *)
Definition if_truthy (a : option value) : option value :=
  match a with
  | Some x => if truthy x then Some x else None
  | None => None
  end.

(** [a || b] where [b] is defined. *)
Definition or_else (a : option value) (b : value) : value :=
  match if_truthy a with
  | Some x => x
  | None => b
  end.

Fixpoint assoc {A : Type} (k : string) (fields : list (string * A)) : option A :=
  match fields with
  | [] => None
  | (k', v) :: rest => if k' =? k then Some v else assoc k rest
  end.

(** The one-character string holding a double quote. *)
Definition dquote : string := String (ascii_of_nat 34) EmptyString.

(** The one-character string holding a line feed. *)
Definition nl : string := String (ascii_of_nat 10) EmptyString.

Definition decimal (n : nat) : string := NilZero.string_of_uint (Nat.to_uint n).

Definition decimalZ (z : Z) : string := NilZero.string_of_int (Z.to_int z).

(** [v.k] for a defined [v]: reading a property of [null] throws, an
    absent property is [undefined]. *)
Definition get (v : value) (k : string) : exn + option value :=
  match v with
  | JNull =>
      inl (TypeError ("Cannot read properties of null (reading '" ++ k ++ "')"))
  | JObj fields => inr (assoc k fields)
  | JArr xs =>
      inr (if k =? "length" then Some (JNum (num_of_Z (Z.of_nat (length xs)))) else None)
  | JStr s =>
      inr (if k =? "length" then Some (JNum (num_of_Z (Z.of_nat (String.length s)))) else None)
  | JBool _ | JNum _ => inr None
  end.

(** [v?.k]: [undefined] when [v] is [null] or [undefined]. *)
Definition get_chain (v : option value) (k : string) : option value :=
  match v with
  | None | Some JNull => None
  | Some x => match get x k with inr r => r | inl _ => None end
  end.

Fixpoint join (sep : string) (parts : list string) : string :=
  match parts with
  | [] => ""
  | [p] => p
  | p :: rest => p ++ sep ++ join sep rest
  end.

(** ToString, as a template literal applies it. *)
Fixpoint js_string (v : value) : string :=
  match v with
  | JNull => "null"
  | JBool true => "true"
  | JBool false => "false"
  | JNum n => Number_toString n
  | JStr s => s
  | JArr xs =>
      join "," (map (fun x => match x with
                              | JNull => ""
                              | _ => js_string x
                              end) xs)
  | JObj _ => "[object Object]"
  end.

Definition js_string_opt (v : option value) : string :=
  match v with
  | Some x => js_string x
  | None => "undefined"
  end.

(** [JSON.stringify(v, null, k)] where [v] may be [undefined]; the
    result is then [undefined], which [+=] renders as text. *)
Definition stringify_indent_opt (v : option value) (k : nat) : string :=
  match v with
  | Some x => JSON_stringify_indent x k
  | None => "undefined"
  end.

(** [String.prototype.includes]. *)
Fixpoint includes (hay needle : string) : bool :=
  if prefix needle hay then true
  else match hay with
       | EmptyString => false
       | String _ rest => includes rest needle
       end.

Definition indices (n : nat) : list string := map decimal (seq 0 n).

(** [Object.keys(v)] for a defined, non-null [v]. *)
Definition Object_keys (v : value) : list string :=
  match v with
  | JObj fields => map fst fields
  | JArr xs => indices (length xs)
  | JStr s => indices (String.length s)
  | _ => []
  end.

End Values.

(** ** Computations: world, log of network calls, exceptions *)

Section Computations.
Context `{R : JsRuntime} `{H : @Host R}.

(** The state an invocation threads: the outside world and the network
    calls issued so far, oldest first. *)
Definition state : Type := world * list Event.

Definition M (A : Type) : Type := state -> (exn + A) * state.

Definition ret {A : Type} (a : A) : M A := fun s => (inr a, s).

Definition throw {A : Type} (e : exn) : M A := fun s => (inl e, s).

Definition bind {A B : Type} (m : M A) (k : A -> M B) : M B :=
  fun s => match m s with
           | (inr a, s') => k a s'
           | (inl e, s') => (inl e, s')
           end.

(** [try { m } catch (error) { handler(error) }]. *)
Definition try_catch {A : Type} (m : M A) (handler : exn -> M A) : M A :=
  fun s => match m s with
           | (inr a, s') => (inr a, s')
           | (inl e, s') => handler e s'
           end.

(** A pure step that may throw. *)
Definition lift {A : Type} (r : exn + A) : M A := fun s => (r, s).

(** [await fetch(url, init)]. *)
Definition do_fetch (url : string) (init : RequestInit) : M Response :=
  fun s => let '(w, log) := s in
           let '(r, w') := fetch url init w in
           (r, (w', (log ++ [FetchCall url init])%list)).

(** [await this.openai.embeddings.create({ model, input })]. *)
Definition do_embed (model input : string) : M (list (list num)) :=
  fun s => let '(w, log) := s in
           let '(r, w') := embeddings_create model input w in
           (r, (w', (log ++ [EmbeddingCall model input])%list)).

(** Reading the clock ([Date.now()], [new Date()]); not a network call. *)
Definition do_now : M Z :=
  fun s => let '(w, log) := s in
           let '(t, w') := Date_now w in
           (inr t, (w', log)).

End Computations.

Declare Scope js_scope.
Delimit Scope js_scope with js.
Notation "x <- m ;; k" := (bind m (fun x => k))
  (at level 61, m at next level, right associativity) : js_scope.
Notation "m ;;; k" := (bind m (fun _ => k))
  (at level 61, right associativity) : js_scope.
Local Open Scope js_scope.

(** ** [src/client.ts]: class [QdrantHttpClient] *)

Record QdrantConfig : Type := {
  url : string;
  apiKey : option string;
  clientDefaultCollection : option string
}.

Section Client.
Context `{R : JsRuntime} `{H : @Host R}.
Variable config : QdrantConfig.

(** [headers[k] = v] on an object: overwrite in place or append. *)
Fixpoint set_header (k v : string) (hs : list (string * string)) : list (string * string) :=
  match hs with
  | [] => [(k, v)]
  | (k', v') :: rest =>
      if k' =? k then (k, v) :: rest else (k', v') :: set_header k v rest
  end.

(** [{ 'Content-Type': 'application/json', ...(options.headers || {}) }]. *)
Definition merged_headers (given : option (list (string * string))) : list (string * string) :=
  fold_left (fun acc kv => set_header (fst kv) (snd kv) acc)
            (match given with Some hs => hs | None => [] end)
            [("Content-Type", "application/json")].

Definition request_headers (given : option (list (string * string))) : list (string * string) :=
  match apiKey config with
  | Some key => if negb (key =? "") then set_header "api-key" key (merged_headers given)
                else merged_headers given
  | None => merged_headers given
  end.

Definition no_options : RequestInit :=
  {| method := None; headers := None; body := None |}.

(** [{ ...options, headers }], the second argument of [fetch]. *)
Definition sent (options : RequestInit) : RequestInit :=
  {| method := method options;
     headers := Some (request_headers (headers options));
     body := body options |}.

Definition makeRequest (endpoint : string) (options : RequestInit) : M Response :=
  do_fetch (url config ++ endpoint) (sent options).

(** The call [makeRequest] issues, as logged. *)
Definition request (endpoint : string) (options : RequestInit) : Event :=
  FetchCall (url config ++ endpoint) (sent options).

(** The body of [createCollection]'s request. *)
Definition create_body (vectorSize : nat) : json num :=
  JObj [("vectors", JObj [("size", JNum (num_of_Z (Z.of_nat vectorSize)));
                          ("distance", JStr "Cosine")])].

Definition create_options (vectorSize : nat) : RequestInit :=
  {| method := Some "PUT"; headers := None;
     body := Some (JSON_stringify (create_body vectorSize)) |}.

Definition collection_path (collectionName : string) : string :=
  "/collections/" ++ collectionName.

Definition createCollection (collectionName : string) (vectorSize : nat) : M unit :=
  response <- makeRequest (collection_path collectionName) (create_options vectorSize) ;;
  if negb (ok response) && negb (status response =? 409)%Z then
    throw (Error ("Failed to create collection: " ++ statusText response))
  else ret tt.

(** [errorResponse.error?.message || errorResponse.status?.error ||
    JSON.stringify(errorResponse)], which throws when [errorResponse] is
    [null]. *)
Definition pick_error_details (errorResponse : json num) : exn + json num :=
  match get errorResponse "error" with
  | inl e => inl e
  | inr err =>
      match if_truthy (get_chain err "message") with
      | Some message => inr message
      | None =>
          match get errorResponse "status" with
          | inl e => inl e
          | inr st =>
              match if_truthy (get_chain st "error") with
              | Some status_error => inr status_error
              | None => inr (JStr (JSON_stringify errorResponse))
              end
          end
      end
  end.

(** [let errorDetails = response.statusText; try { ... } catch { }]. *)
Definition error_details (response : Response) : json num :=
  match json_body response with
  | inl _ => JStr (statusText response)
  | inr errorResponse =>
      match pick_error_details errorResponse with
      | inl _ => JStr (statusText response)
      | inr details => details
      end
  end.

Definition upsert_body (points : list (json num)) : json num :=
  JObj [("points", JArr points)].

Definition upsert_options (points : list (json num)) : RequestInit :=
  {| method := Some "PUT"; headers := None;
     body := Some (JSON_stringify (upsert_body points)) |}.

Definition points_path (collectionName : string) : string :=
  "/collections/" ++ collectionName ++ "/points".

Definition upsertPoints (collectionName : string) (points : list (json num)) : M unit :=
  response <- makeRequest (points_path collectionName) (upsert_options points) ;;
  if negb (ok response) then
    throw (Error ("Failed to upsert points in collection '" ++ collectionName
                  ++ "': " ++ js_string (error_details response)))
  else ret tt.

(** [requestBody] of [searchPoints]. *)
Definition search_body (queryVector : list num) (limit : num) (vectorName : option string)
  : json num :=
  JObj [("limit", JNum limit);
        ("with_payload", JBool true);
        ("vector",
         if truthy_str vectorName
         then JObj [("name", JStr (match vectorName with Some n => n | None => "" end));
                    ("vector", JArr (map JNum queryVector))]
         else JArr (map JNum queryVector))].

Definition vector_name_needle : string := "requires specified vector name".

Definition vector_name_hint : string :=
  ". Hint: Try setting a vector name (e.g., " ++ dquote ++ "dense" ++ dquote
  ++ " or " ++ dquote ++ "sparse" ++ dquote ++ ")".

(** [errorDetails.includes('requires specified vector name')]; strings
    and arrays have the method, nothing else does. *)
Definition details_include (errorDetails : json num) : exn + bool :=
  match errorDetails with
  | JStr s => inr (includes s vector_name_needle)
  | JArr xs =>
      inr (existsb (fun x => match x with
                             | JStr s => s =? vector_name_needle
                             | _ => false
                             end) xs)
  | _ => inl (TypeError "errorDetails.includes is not a function")
  end.

(** The text of [errorDetails] once the hint test has run. *)
Definition hinted_details (errorDetails : json num) (vectorName : option string)
  : exn + string :=
  match details_include errorDetails with
  | inl e => inl e
  | inr mentions =>
      if mentions && negb (truthy_str vectorName)
      then inr (js_string errorDetails ++ vector_name_hint)
      else inr (js_string errorDetails)
  end.

Definition search_path (collectionName : string) : string :=
  "/collections/" ++ collectionName ++ "/points/search".

Definition search_options (requestBody : json num) : RequestInit :=
  {| method := Some "POST"; headers := None;
     body := Some (JSON_stringify requestBody) |}.

(** [limit: number = 5]. *)
Definition limit_or_default (limit : option num) : num :=
  match limit with
  | Some l => l
  | None => num_of_Z 5
  end.

Definition searchPoints (collectionName : string) (queryVector : list num)
    (limit : option num) (vectorName : option string) : M (json num) :=
  let requestBody := search_body queryVector (limit_or_default limit) vectorName in
  response <- makeRequest (search_path collectionName) (search_options requestBody) ;;
  if negb (ok response) then
    errorDetails <- lift (hinted_details (error_details response) vectorName) ;;
    throw (Error ("Failed to search points in collection '" ++ collectionName
                  ++ "': " ++ errorDetails
                  ++ ". Request: " ++ JSON_stringify requestBody))
  else
    result <- lift (json_body response) ;;
    found <- lift (get result "result") ;;
    ret (or_else found (JArr [])).

End Client.

(** ** [src/server.ts]: class [QdrantMCPServer] *)

(** The members the handlers read, and [process.env]. *)
Record QdrantMCPServer : Type := {
  qdrantClient : QdrantConfig;
  defaultCollection : option string;
  env : string -> option string
}.

(** The constructor, up to the registration of the tools. *)
Definition new_QdrantMCPServer (process_env : string -> option string)
  : exn + QdrantMCPServer :=
  let qdrantUrl := or_default (process_env "QDRANT_URL") "http://localhost:6333" in
  let qdrantApiKey := process_env "QDRANT_API_KEY" in
  let default := process_env "COLLECTION_NAME" in
  let openaiApiKey := or_str (process_env "OPENAPI_API_KEY") (process_env "OPENAI_API_KEY") in
  if negb (truthy_str openaiApiKey) then
    inl (Error "OpenAI API key is required (OPENAPI_API_KEY or OPENAI_API_KEY)")
  else
    inr {| qdrantClient := {| url := qdrantUrl; apiKey := qdrantApiKey;
                              clientDefaultCollection := default |};
           defaultCollection := default;
           env := process_env |}.

(** [z.enum(['dense', 'sparse'])]. *)
Inductive VectorName : Type := dense | sparse.

Definition VectorName_string (v : VectorName) : string :=
  match v with
  | dense => "dense"
  | sparse => "sparse"
  end.

Section Server.
Context `{R : JsRuntime} `{H : @Host R}.
Variable this : QdrantMCPServer.

(** [const collectionName = args.collection_name || this.defaultCollection;
    if (!collectionName) throw new Error('Collection name is required')],
    the first statements of the three handlers. *)
Definition effective_collection (collection_name : option string) : option string :=
  or_str collection_name (defaultCollection this).

Definition resolve_collection (collection_name : option string) : M string :=
  match effective_collection collection_name with
  | Some collectionName =>
      if negb (collectionName =? "") then ret collectionName
      else throw (Error "Collection name is required")
  | None => throw (Error "Collection name is required")
  end.

Definition embedding_model : string :=
  or_default (env this "OPENAI_EMBEDDING_MODEL") "text-embedding-3-small".

(** [embeddingResponse.data[0].embedding]. *)
Definition first_embedding (data : list (list num)) : exn + list num :=
  match data with
  | embedding :: _ => inr embedding
  | [] => inl (TypeError "Cannot read properties of undefined (reading 'embedding')")
  end.

(** The payload object of a stored point; [if (args.metadata)] adds the
    third key. *)
Definition store_payload (information stored_at : string) (metadata : option (json num))
  : list (string * json num) :=
  [("information", JStr information); ("stored_at", JStr stored_at)]
  ++ (match if_truthy metadata with
      | Some m => [("metadata", m)]
      | None => []
      end)%list.

Definition store_point (pointId : string) (embedding : list num)
    (payload : list (string * json num)) : json num :=
  JObj [("id", JStr pointId); ("vector", JArr (map JNum embedding));
        ("payload", JObj payload)].

Definition store_confirmation (collectionName pointId : string) : string :=
  "Information stored successfully in collection '" ++ collectionName
  ++ "' with ID: " ++ pointId.

(** A [CallToolResult] is rendered as the texts of its content items. *)
Definition store_into (collectionName information : string)
    (metadata : option (json num)) : M (list string) :=
  data <- do_embed embedding_model information ;;
  embedding <- lift (first_embedding data) ;;
  createCollection (qdrantClient this) collectionName (length embedding) ;;;
  now <- do_now ;;
  let pointId := decimalZ now in
  date <- do_now ;;
  let payload := store_payload information (Date_toISOString date) metadata in
  upsertPoints (qdrantClient this) collectionName [store_point pointId embedding payload] ;;;
  ret [store_confirmation collectionName pointId].

Definition handleStore (information : string) (metadata : option (json num))
    (collection_name : option string) : M (list string) :=
  collectionName <- resolve_collection collection_name ;;
  store_into collectionName information metadata.

(** [results.length === 0]. *)
Definition length_is_zero (v : json num) : bool :=
  match v with
  | JArr xs => Nat.eqb (length xs) 0
  | JStr s => Nat.eqb (String.length s) 0
  | JObj fields =>
      match assoc "length" fields with
      | Some (JNum n) => num_is_zero n
      | _ => false
      end
  | _ => false
  end.

(** [process.env.NODE_ENV === 'development' || process.env.DEBUG_QDRANT]. *)
Definition debug_mode : bool :=
  match env this "NODE_ENV" with
  | Some v => v =? "development"
  | None => false
  end
  || truthy_str (env this "DEBUG_QDRANT").

Definition score_of (result_score : option (json num)) : json num :=
  or_else result_score (JNum (num_of_Z 0)).

Definition payload_of (result_payload : option (json num)) : json num :=
  or_else result_payload (JObj []).

Definition result_text (index : nat) (score : num) (payload : json num) : string :=
  "Result " ++ decimal (index + 1) ++ " (Score: " ++ Number_toFixed score 4 ++ "):" ++ nl
  ++ (if debug_mode
      then "Debug - Payload keys: " ++ join ", " (Object_keys payload) ++ nl
      else "")
  ++ "Detail: " ++ JSON_stringify payload ++ nl.

(** The callback given to [results.map]. *)
Definition format_result (result : json num) (index : nat) : exn + string :=
  match get result "score", get result "payload" with
  | inr result_score, inr result_payload =>
      match score_of result_score with
      | JNum score => inr (result_text index score (payload_of result_payload))
      | _ => inl (TypeError "score.toFixed is not a function")
      end
  | inl e, _ => inl e
  | _, inl e => inl e
  end.

Fixpoint map_from (index : nat) (results : list (json num)) : exn + list string :=
  match results with
  | [] => inr []
  | result :: rest =>
      match format_result result index with
      | inl e => inl e
      | inr text =>
          match map_from (S index) rest with
          | inl e => inl e
          | inr texts => inr (text :: texts)
          end
      end
  end.

(** [results.map((result, index) => ...)]; only arrays have the method. *)
Definition formattedResults (results : json num) : exn + list string :=
  match results with
  | JArr xs => map_from 0 xs
  | _ => inl (TypeError "results.map is not a function")
  end.

Definition no_results_text (query : string) : string :=
  "No relevant information found for query: " ++ dquote ++ query ++ dquote.

(** What [handleFind] returns for the [results] of the search. *)
Definition found_texts (query : string) (results : json num) : M (list string) :=
  if length_is_zero results then ret [no_results_text query]
  else
    texts <- lift (formattedResults results) ;;
    ret texts.

Definition find_in (collectionName query : string) (vector_name : option VectorName)
  : M (list string) :=
  data <- do_embed embedding_model query ;;
  queryVector <- lift (first_embedding data) ;;
  results <- searchPoints (qdrantClient this) collectionName queryVector
               (Some (num_of_Z 5)) (option_map VectorName_string vector_name) ;;
  found_texts query results.

Definition handleFind (query : string) (collection_name : option string)
    (vector_name : option VectorName) : M (list string) :=
  collectionName <- resolve_collection collection_name ;;
  find_in collectionName query vector_name.

(** [error instanceof Error ? error.message : String(error)]. *)
Definition error_text (error : exn) : string :=
  match error with
  | Error message | TypeError message | HostError message => message
  | Thrown rendering => rendering
  end.

Definition scroll_body : json num :=
  JObj [("limit", JNum (num_of_Z 5)); ("with_payload", JBool true);
        ("with_vector", JBool false)].

(** The options of the sampling request of [handleDebug]. *)
Definition scroll_options : RequestInit :=
  {| method := Some "POST"; headers := None;
     body := Some (JSON_stringify scroll_body) |}.

Definition scroll_path (collectionName : string) : string :=
  "/collections/" ++ collectionName ++ "/points/scroll".

(** The callback given to [forEach] in [handleDebug]. *)
Definition point_text (point : json num) (index : nat) : exn + string :=
  match get point "id", get point "payload" with
  | inr id, inr payload =>
      inr (nl ++ "--- Point " ++ decimal (index + 1) ++ " (ID: " ++ js_string_opt id
           ++ ") ---" ++ nl
           ++ "Payload keys: " ++ join ", " (Object_keys (payload_of payload)) ++ nl
           ++ "Payload: " ++ stringify_indent_opt payload 2 ++ nl)
  | inl e, _ => inl e
  | _, inl e => inl e
  end.

Fixpoint points_text (index : nat) (points : list (json num)) : exn + string :=
  match points with
  | [] => inr ""
  | point :: rest =>
      match point_text point index with
      | inl e => inl e
      | inr text =>
          match points_text (S index) rest with
          | inl e => inl e
          | inr texts => inr (text ++ texts)
          end
      end
  end.

(** The text [handleDebug] builds from the two parsed responses. *)
Definition debugInfo (collectionName : string) (info sampleData : json num)
  : exn + string :=
  match get info "result" with
  | inl e => inl e
  | inr info_result =>
      match get sampleData "result" with
      | inl e => inl e
      | inr sample_result =>
          let sampled := get_chain sample_result "result" in
          let heading :=
            "Collection Info for " ++ dquote ++ collectionName ++ dquote ++ ":" ++ nl
            ++ stringify_indent_opt info_result 2
            ++ nl ++ nl ++ "Sample Data (first "
            ++ js_string (or_else (get_chain sampled "length") (JNum (num_of_Z 0)))
            ++ " points):" ++ nl in
          match if_truthy sampled with
          | Some (JArr xs) =>
              match points_text 0 xs with
              | inl e => inl e
              | inr texts => inr (heading ++ texts)
              end
          | Some _ => inl (TypeError "sampleData.result.result.forEach is not a function")
          | None => inr heading
          end
      end
  end.

(** The [try] block of [handleDebug] with its [catch]. *)
Definition inspect (collectionName : string) : M (list string) :=
  try_catch
    (collectionInfo <- makeRequest (qdrantClient this)
                         (collection_path collectionName) no_options ;;
     info <- lift (json_body collectionInfo) ;;
     sampleResponse <- makeRequest (qdrantClient this)
                         ("/collections/" ++ collectionName ++ "/points/scroll")
                         {| method := Some "POST"; headers := None;
                            body := Some (JSON_stringify scroll_body) |} ;;
     sampleData <- lift (json_body sampleResponse) ;;
     text <- lift (debugInfo collectionName info sampleData) ;;
     ret [text])
    (fun error => ret ["Debug error: " ++ error_text error]).

Definition handleDebug (collection_name : option string) : M (list string) :=
  collectionName <- resolve_collection collection_name ;;
  inspect collectionName.

(** *** The callbacks registered with [registerTool] *)

(** [try { return await handler } catch (error) { return Error text }]. *)
Definition tool_result (handler : M (list string)) : M (list string) :=
  try_catch handler (fun error => ret ["Error: " ++ error_text error]).

(** [collection_name: this.defaultCollection || args.collection_name]. *)
Definition tool_collection (collection_name : option string) : option string :=
  or_str (defaultCollection this) collection_name.

Definition qdrant_store (information : string) (metadata : option (json num))
    (collection_name : option string) : M (list string) :=
  tool_result (handleStore information metadata (tool_collection collection_name)).

Definition qdrant_find (query : string) (vector_name : option VectorName)
    (collection_name : option string) : M (list string) :=
  tool_result (handleFind query (tool_collection collection_name) vector_name).

Definition qdrant_debug (collection_name : option string) : M (list string) :=
  tool_result (handleDebug (tool_collection collection_name)).

End Server.

(** ** The specification's notions, in its own words *)

(** An optional name is present when it is given and not empty. *)
Definition present (name : option string) : option string :=
  match name with
  | Some s => if s =? "" then None else Some s
  | None => None
  end.

(** "explicit argument, else configured default". *)
Definition spec_collection (explicit default : option string) : option string :=
  match present explicit with
  | Some c => Some c
  | None => present default
  end.

Section SpecWords.
Context `{R : JsRuntime}.





(** "a plain vector array" or "{name, vector}". *)
Definition spec_vector (queryVector : list num) (vectorName : option string) : json num :=
  match present vectorName with
  | Some name => JObj [("name", JStr name); ("vector", JArr (map JNum queryVector))]
  | None => JArr (map JNum queryVector)
  end.

(** A search hit with a numeric score; [payload] is what the hit
    carries, or the empty object when it carries none. *)
Definition search_hit (result : json num) (score : num) (payload : json num) : Prop :=
  exists fields,
    result = JObj fields /\
    assoc "score" fields = Some (JNum score) /\
    or_else (assoc "payload" fields) (JObj []) = payload.

Definition is_hit (result : json num) (hit : num * json num) : Prop :=
  search_hit result (fst hit) (snd hit).

(** The point [handleStore] writes: generated id, embedding, and a
    payload holding the information, the time of storage and, when the
    caller supplied it, the metadata. *)
Definition stored_point (information : string)
    (metadata : option (list (string * json num)))
    (embedding : list num) (now date : Z) : json num :=
  JObj [("id", JStr (decimalZ now));
        ("vector", JArr (map JNum embedding));
        ("payload",
         JObj ([("information", JStr information);
                ("stored_at", JStr (Date_toISOString date))]
               ++ match metadata with
                  | Some m => [("metadata", JObj m)]
                  | None => []
                  end)%list)].

(** The message for each hit, ranks counted from [index + 1]. *)
Fixpoint hit_texts (server : QdrantMCPServer) (index : nat) (hits : list (num * json num))
  : list string :=
  match hits with
  | [] => []
  | (score, payload) :: rest =>
      result_text server index score payload :: hit_texts server (S index) rest
  end.

End SpecWords.

(** ** A runtime and a host to run the model on concrete inputs *)

(** The runtime restricted to integer numbers. *)
Module IntegerRuntime.

Definition backslash : string := String (ascii_of_nat 92) EmptyString.

(** String escaping of [JSON.stringify], for the quote, the backslash
    and the line feed; other characters are copied. *)
Fixpoint escape (s : string) : string :=
  match s with
  | EmptyString => EmptyString
  | String c rest =>
      (if Ascii.eqb c (ascii_of_nat 34) then backslash ++ dquote
       else if Ascii.eqb c (ascii_of_nat 92) then backslash ++ backslash
       else if Ascii.eqb c (ascii_of_nat 10) then backslash ++ "n"
       else String c EmptyString) ++ escape rest
  end.

Definition quote (s : string) : string := dquote ++ escape s ++ dquote.

Fixpoint stringify (v : json Z) : string :=
  match v with
  | JNull => "null"
  | JBool true => "true"
  | JBool false => "false"
  | JNum n => decimalZ n
  | JStr s => quote s
  | JArr xs => "[" ++ join "," (map stringify xs) ++ "]"
  | JObj fields =>
      "{" ++ join "," (map (fun kv => let '(k, x) := kv in quote k ++ ":" ++ stringify x)
                           fields) ++ "}"
  end.

Fixpoint spaces (n : nat) : string :=
  match n with
  | O => EmptyString
  | S m => " " ++ spaces m
  end.

Fixpoint pretty (k depth : nat) (v : json Z) : string :=
  let inner := nl ++ spaces (k * S depth) in
  let outer := nl ++ spaces (k * depth) in
  match v with
  | JArr [] => "[]"
  | JObj [] => "{}"
  | JArr xs => "[" ++ inner ++ join ("," ++ inner) (map (pretty k (S depth)) xs) ++ outer ++ "]"
  | JObj fields =>
      "{" ++ inner
      ++ join ("," ++ inner)
           (map (fun kv => let '(key, x) := kv in quote key ++ ": " ++ pretty k (S depth) x)
                fields)
      ++ outer ++ "}"
  | _ => stringify v
  end.

Fixpoint zeros (n : nat) : string :=
  match n with
  | O => EmptyString
  | S m => "0" ++ zeros m
  end.

(** [n.toFixed(d)] of an integer. *)
Definition toFixed (n : Z) (d : nat) : string :=
  match d with
  | O => decimalZ n
  | _ => decimalZ n ++ "." ++ zeros d
  end.

(** [z] in decimal, left-padded with zeros to [width] digits. *)
Definition padded (width : nat) (z : Z) : string :=
  let digits := decimalZ z in
  zeros (width - String.length digits) ++ digits.

(** [toISOString] of a time in milliseconds since the epoch, for the
    years 0000 to 9999 (days to civil date in the proleptic Gregorian
    calendar). *)
Definition toISOString (ms : Z) : string :=
  let days := (ms / 86400000)%Z in
  let rest := (ms mod 86400000)%Z in
  let z := (days + 719468)%Z in
  let era := (z / 146097)%Z in
  let doe := (z - era * 146097)%Z in
  let yoe := ((doe - doe / 1460 + doe / 36524 - doe / 146096) / 365)%Z in
  let doy := (doe - (365 * yoe + yoe / 4 - yoe / 100))%Z in
  let mp := ((5 * doy + 2) / 153)%Z in
  let day := (doy - (153 * mp + 2) / 5 + 1)%Z in
  let month := (if mp <? 10 then mp + 3 else mp - 9)%Z in
  let year := (yoe + era * 400 + (if month <=? 2 then 1 else 0))%Z in
  padded 4 year ++ "-" ++ padded 2 month ++ "-" ++ padded 2 day ++ "T"
  ++ padded 2 (rest / 3600000)%Z ++ ":" ++ padded 2 ((rest / 60000) mod 60)%Z ++ ":"
  ++ padded 2 ((rest / 1000) mod 60)%Z ++ "." ++ padded 3 (rest mod 1000)%Z ++ "Z".

Definition toFixed_of_zero (n : Z) (d : nat) (E : (n =? 0)%Z = true)
  : toFixed n d = toFixed 0 d :=
  f_equal (fun z => toFixed z d) (proj1 (Z.eqb_eq n 0) E).

#[export] Instance runtime : JsRuntime := {|
  num := Z;
  num_of_Z := fun z => z;
  num_is_zero := fun n => (n =? 0)%Z;
  Number_toString := decimalZ;
  Number_toFixed := toFixed;
  JSON_stringify := stringify;
  JSON_stringify_indent := fun v k => pretty k 0 v;
  Date_toISOString := toISOString;
  toFixed_zero := toFixed_of_zero
|}.

End IntegerRuntime.

(** A host that answers from a script, as the test suite's mocked
    [fetch] does: each call consumes the next scripted answer. *)
Module Mock.
Import IntegerRuntime.

Record script : Type := {
  replies : list (exn + Response);
  vectors : list (exn + list (list Z));
  time : Z
}.

Definition mock_fetch (_ : string) (_ : RequestInit) (w : script)
  : (exn + Response) * script :=
  match replies w with
  | reply :: rest =>
      (reply, {| replies := rest; vectors := vectors w; time := time w |})
  | [] => (inl (HostError "fetch failed"), w)
  end.

Definition mock_embed (_ _ : string) (w : script) : (exn + list (list Z)) * script :=
  match vectors w with
  | v :: rest => (v, {| replies := replies w; vectors := rest; time := time w |})
  | [] => (inl (HostError "Connection error."), w)
  end.

Definition mock_now (w : script) : Z * script :=
  (time w, {| replies := replies w; vectors := vectors w; time := (time w + 1)%Z |}).

#[export] Instance host : Host := {|
  world := script;
  fetch := mock_fetch;
  embeddings_create := mock_embed;
  Date_now := mock_now
|}.

Definition reply (good : bool) (code : Z) (text : string) (parsed : exn + json Z)
  : exn + Response :=
  inr {| ok := good; status := code; statusText := text; json_body := parsed |}.

(** The client of the test suite. *)
Definition test_config : QdrantConfig :=
  {| url := "http://localhost:6333"; apiKey := Some "test-api-key";
     clientDefaultCollection := None |}.

Definition server_with (default : option string) : QdrantMCPServer :=
  {| qdrantClient := {| url := "http://localhost:6333"; apiKey := None;
                        clientDefaultCollection := default |};
     defaultCollection := default;
     env := fun _ => None |}.

(** Two provisioning requests in a row: created, then already there. *)
Definition created_then_conflict : script :=
  {| replies := [reply true 200 "OK" (inr (JObj [("result", JBool true)]));
                 reply false 409 "Conflict" (inr (JObj [("error", JStr "already exists")]))];
     vectors := [];
     time := 0 |}.

(** The test suite's search answered with a body that has no [result]. *)
Definition missing_result : script :=
  {| replies := [reply true 200 "OK" (inr (JObj []))];
     vectors := [inr [[1; 2; 3]%Z]];
     time := 0 |}.



(** The first store into a collection: the provider embeds the text,
    the store creates the collection and accepts the point. *)
Definition first_store : script :=
  {| replies := [reply true 200 "OK" (inr (JObj [("result", JBool true)]));
                 reply true 200 "OK" (inr (JObj [("result", JObj [("status", JStr "ok")])]))];
     vectors := [inr [[1; 2; 3]%Z]];
     time := 1700000000000 |}.

(** The calls that first store issues. *)
Definition first_store_calls : list Event :=
  [EmbeddingCall "text-embedding-3-small" "hello";
   FetchCall "http://localhost:6333/collections/C"
     {| method := Some "PUT";
        headers := Some [("Content-Type", "application/json")];
        body := Some (stringify
                        (JObj [("vectors",
                                JObj [("size", JNum 3%Z); ("distance", JStr "Cosine")])])) |};
   FetchCall "http://localhost:6333/collections/C/points"
     {| method := Some "PUT";
        headers := Some [("Content-Type", "application/json")];
        body := Some (stringify
                        (JObj [("points",
                                JArr [JObj [("id", JStr "1700000000000");
                                            ("vector", JArr [JNum 1%Z; JNum 2%Z; JNum 3%Z]);
                                            ("payload",
                                             JObj [("information", JStr "hello");
                                                   ("stored_at",
                                                    JStr "2023-11-14T22:13:20.001Z");
                                                   ("metadata",
                                                    JObj [("topic", JStr "greeting")])])]])]))
     |}].

Definition test_hit : json Z :=
  JObj [("id", JStr "1"); ("score", JNum 1%Z);
        ("payload", JObj [("information", JStr "test information")])].

(** A search that finds one point. *)
Definition one_hit : script :=
  {| replies := [reply true 200 "OK" (inr (JObj [("result", JArr [test_hit])]))];
     vectors := [inr [[1; 2; 3]%Z]];
     time := 0 |}.

(** The environment of a server started with a default collection. *)
Definition startup_env (name : string) : option string :=
  if name =? "COLLECTION_NAME" then Some "memories"
  else if name =? "OPENAI_API_KEY" then Some "sk-test"
  else None.

Definition started : QdrantMCPServer :=
  {| qdrantClient := {| url := "http://localhost:6333"; apiKey := None;
                        clientDefaultCollection := Some "memories" |};
     defaultCollection := Some "memories";
     env := startup_env |}.

(** A refusal whose body is [body]. *)
Definition refused_with (body : exn + json Z) : script :=
  {| replies := [reply false 500 "Internal Server Error" body];
     vectors := [];
     time := 0 |}.



(** No answer is needed when no call is made. *)
Definition silent : script := {| replies := []; vectors := []; time := 0 |}.

End Mock.

(** Further scripted answers, for the runs of the later sections. *)
Module Scenes.
Import IntegerRuntime Mock.

(** A caller that brings its own headers. *)
Definition own_headers : RequestInit :=
  {| method := Some "GET";
     headers := Some [("api-key", "callers-key"); ("Accept", "application/json")];
     body := None |}.

(** A store that cannot be reached, with a working embedding provider. *)
Definition unreachable : script :=
  {| replies := [inl (HostError "fetch failed")];
     vectors := [inr [[1; 2; 3]%Z]];
     time := 0 |}.

Definition conflict_answer : Response :=
  {| ok := false; status := 409; statusText := "Conflict";
     json_body := inr (JObj [("error", JStr "already exists")]) |}.

(** An answer with status 409 to any request. *)
Definition conflict : script :=
  {| replies := [inr conflict_answer];
     vectors := [inr [[1; 2; 3]%Z]];
     time := 0 |}.

Definition ranked_hits : list (json Z) :=
  [JObj [("id", JNum 7%Z); ("score", JNum 3%Z)];
   JObj [("id", JNum 2%Z); ("score", JNum 2%Z)];
   JObj [("id", JNum 9%Z); ("score", JNum 1%Z)]].

(** A search answered with three hits. *)
Definition three_hits : script :=
  {| replies := [reply true 200 "OK" (inr (JObj [("result", JArr ranked_hits)]))];
     vectors := [inr [[1; 2; 3]%Z]];
     time := 0 |}.

(** The embedding provider refusing the call. *)
Definition no_embedding : script :=
  {| replies := [reply true 200 "OK" (inr (JObj []))];
     vectors := [inl (HostError "401 Incorrect API key provided")];
     time := 0 |}.

(** The store refusing to create the collection. *)
Definition no_provisioning : script :=
  {| replies := [reply false 500 "Internal Server Error" (inr (JObj []));
                 reply true 200 "OK" (inr (JObj []))];
     vectors := [inr [[1; 2; 3]%Z]];
     time := 0 |}.


(** A store that already has the collection and accepts the point. *)
Definition existing_collection : script :=
  {| replies := [inr conflict_answer;
                 reply true 200 "OK" (inr (JObj [("result", JObj [("status", JStr "ok")])]))];
     vectors := [inr [[1; 2; 3]%Z]];
     time := 1700000000000 |}.

(** A collection that does not exist, inspected. *)
Definition not_found : script :=
  {| replies := [reply false 404 "Not Found"
                   (inr (JObj [("status", JObj [("error", JStr "Not found")])]));
                 reply false 404 "Not Found"
                   (inr (JObj [("status", JObj [("error", JStr "Not found")])]))];
     vectors := [];
     time := 0 |}.

(** A collection whose description arrives, and whose sample does not
    parse. *)
Definition garbled_sample : script :=
  {| replies := [reply true 200 "OK" (inr (JObj [("result", JObj [("status", JStr "green")])]));
                 reply true 200 "OK" (inl (HostError "Unexpected end of JSON input"))];
     vectors := [];
     time := 0 |}.

(** An environment with the second of the two key variables only. *)
Definition minimal_env (name : string) : option string :=
  if name =? "OPENAI_API_KEY" then Some "sk-test" else None.

End Scenes.

(** ** Facts about strings *)

Lemma append_assoc (a b c : string) : (a ++ b) ++ c = a ++ (b ++ c).
Proof.
  induction a as [| x a IH]; simpl; [reflexivity | now rewrite IH].
Qed.

Lemma append_empty_r (a : string) : a ++ "" = a.
Proof.
  induction a as [| x a IH]; simpl; [reflexivity | now rewrite IH].
Qed.

Lemma includes_unfold (hay needle : string) :
  includes hay needle
  = if prefix needle hay then true
    else match hay with
         | EmptyString => false
         | String _ rest => includes rest needle
         end.
Proof.
  destruct hay; reflexivity.
Qed.

Lemma prefix_app (s t : string) : prefix s (s ++ t) = true.
Proof.
  induction s as [| a s IH]; simpl.
  - destruct t; reflexivity.
  - destruct (ascii_dec a a) as [_ | Hneq]; [exact IH | contradiction].
Qed.

Lemma includes_app (before s after : string) :
  includes (before ++ s ++ after) s = true.
Proof.
  induction before as [| a before IH]; simpl append.
  - rewrite includes_unfold, prefix_app. reflexivity.
  - rewrite includes_unfold. destruct (prefix s (String a (before ++ s ++ after)));
      [reflexivity | exact IH].
Qed.

(** ** Properties of the client *)

Section ClientProperties.
Context `{R : JsRuntime} `{H : @Host R}.
Variable config : QdrantConfig.

Lemma makeRequest_run endpoint options w log r w' :
  fetch (url config ++ endpoint) (sent config options) w = (r, w') ->
  makeRequest config endpoint options (w, log)
  = (r, (w', (log ++ [request config endpoint options])%list)).
Proof.
  intros E. unfold makeRequest, do_fetch. rewrite E. reflexivity.
Qed.

Lemma createCollection_run collectionName vectorSize w log r w' :
  fetch (url config ++ collection_path collectionName)
        (sent config (create_options vectorSize)) w = (r, w') ->
  createCollection config collectionName vectorSize (w, log)
  = (match r with
     | inl e => inl e
     | inr response =>
         if ok response || (status response =? 409)%Z then inr tt
         else inl (Error ("Failed to create collection: " ++ statusText response))
     end,
     (w', (log ++ [request config (collection_path collectionName)
                           (create_options vectorSize)])%list)).
Proof.
  intros E. unfold createCollection, bind.
  rewrite (makeRequest_run _ _ _ _ _ _ E).
  destruct r as [e | response]; [reflexivity |].
  destruct (ok response); destruct (status response =? 409)%Z; reflexivity.
Qed.

(** C1.  Whatever the collection name and dimensionality, when the
    store answers the provisioning request with a success status or with
    status 409 (conflict), [createCollection] returns normally; when it
    answers with any other non-success status, [createCollection] throws
    an error whose message carries the remote status text.  Hence two
    calls in a row, each answered with success or conflict, both return
    normally; each issues one request. *)
Theorem createCollection_conflict_is_success
    (collectionName : string) (vectorSize : nat) (w w' : world) (log : list Event)
    (r : Response) :
  fetch (url config ++ collection_path collectionName)
        (sent config (create_options vectorSize)) w = (inr r, w') ->
  let call := request config (collection_path collectionName) (create_options vectorSize) in
  (ok r = true \/ status r = 409%Z ->
   createCollection config collectionName vectorSize (w, log)
   = (inr tt, (w', (log ++ [call])%list)))
  /\ (ok r = false -> status r <> 409%Z ->
      createCollection config collectionName vectorSize (w, log)
      = (inl (Error ("Failed to create collection: " ++ statusText r)),
         (w', (log ++ [call])%list)))
  /\ (forall (r2 : Response) (w2 : world),
        fetch (url config ++ collection_path collectionName)
              (sent config (create_options vectorSize)) w' = (inr r2, w2) ->
        ok r = true \/ status r = 409%Z ->
        ok r2 = true \/ status r2 = 409%Z ->
        (createCollection config collectionName vectorSize ;;;
         createCollection config collectionName vectorSize) (w, log)
        = (inr tt, (w2, (log ++ [call; call])%list))).
Proof.
  intros E call.
  assert (accepted : forall x : Response,
             ok x = true \/ status x = 409%Z -> ok x || (status x =? 409)%Z = true).
  { intros x [Hok | Hst].
    - rewrite Hok. reflexivity.
    - rewrite Hst, Z.eqb_refl. apply orb_true_r. }
  split; [| split].
  - intros Hr. rewrite (createCollection_run _ _ _ _ _ _ E). cbv beta iota.
    rewrite (accepted r Hr). reflexivity.
  - intros Hok Hst. rewrite (createCollection_run _ _ _ _ _ _ E). cbv beta iota.
    rewrite Hok. apply Z.eqb_neq in Hst. rewrite Hst. reflexivity.
  - intros r2 w2 E2 Hr Hr2. unfold bind at 1.
    rewrite (createCollection_run _ _ _ _ _ _ E). cbv beta iota.
    rewrite (accepted r Hr).
    rewrite (createCollection_run _ _ _ _ _ _ E2). cbv beta iota.
    rewrite (accepted r2 Hr2), <- app_assoc. reflexivity.
Qed.

Lemma searchPoints_run collectionName queryVector limit vectorName w log r w' :
  let requestBody := search_body queryVector (limit_or_default limit) vectorName in
  fetch (url config ++ search_path collectionName)
        (sent config (search_options requestBody)) w = (r, w') ->
  searchPoints config collectionName queryVector limit vectorName (w, log)
  = (match r with
     | inl e => inl e
     | inr response =>
         if negb (ok response) then
           match hinted_details (error_details response) vectorName with
           | inl e => inl e
           | inr errorDetails =>
               inl (Error ("Failed to search points in collection '" ++ collectionName
                           ++ "': " ++ errorDetails
                           ++ ". Request: " ++ JSON_stringify requestBody))
           end
         else
           match json_body response with
           | inl e => inl e
           | inr result =>
               match get result "result" with
               | inl e => inl e
               | inr found => inr (or_else found (JArr []))
               end
           end
     end,
     (w', (log ++ [request config (search_path collectionName) (search_options requestBody)])%list)).
Proof.
  intros requestBody E. unfold searchPoints, bind. fold requestBody.
  rewrite (makeRequest_run _ _ _ _ _ _ E).
  destruct r as [e | response]; [reflexivity |].
  destruct (negb (ok response)).
  - unfold lift, throw. destruct (hinted_details _ _); reflexivity.
  - unfold lift, ret. destruct (json_body response) as [e | result]; [reflexivity |].
    destruct (get result "result"); reflexivity.
Qed.

Lemma upsertPoints_run collectionName points w log r w' :
  fetch (url config ++ points_path collectionName)
        (sent config (upsert_options points)) w = (r, w') ->
  upsertPoints config collectionName points (w, log)
  = (match r with
     | inl e => inl e
     | inr response =>
         if negb (ok response)
         then inl (Error ("Failed to upsert points in collection '" ++ collectionName
                          ++ "': " ++ js_string (error_details response)))
         else inr tt
     end,
     (w', (log ++ [request config (points_path collectionName) (upsert_options points)])%list)).
Proof.
  intros E. unfold upsertPoints, bind.
  rewrite (makeRequest_run _ _ _ _ _ _ E).
  destruct r as [e | response]; [reflexivity |].
  destruct (negb (ok response)); reflexivity.
Qed.

Lemma search_body_vector queryVector limit vectorName :
  search_body queryVector limit vectorName
  = JObj [("limit", JNum limit); ("with_payload", JBool true);
          ("vector", spec_vector queryVector vectorName)].
Proof.
  unfold search_body, spec_vector, present, truthy_str.
  destruct vectorName as [name |]; [| reflexivity].
  destruct (name =? ""); reflexivity.
Qed.

Lemma searchPoints_issues collectionName queryVector limit vectorName w log :
  exists outcome w',
    searchPoints config collectionName queryVector limit vectorName (w, log)
    = (outcome,
       (w', (log ++ [request config (search_path collectionName)
                       (search_options
                          (search_body queryVector (limit_or_default limit) vectorName))
                    ])%list)).
Proof.
  destruct (fetch (url config ++ search_path collectionName)
              (sent config (search_options
                 (search_body queryVector (limit_or_default limit) vectorName))) w)
    as [r w'] eqn:E.
  eexists. exists w'. apply (searchPoints_run _ _ _ _ _ _ _ _ E).
Qed.

(** C9.  Every [searchPoints] call issues one POST to the search
    endpoint of the collection, the same with and without a vector name.
    When no vector name is supplied, the [vector] field of the request
    body is the plain query vector; when a vector name is supplied, it is
    the object with [name] and [vector].  (A name is a non-empty string;
    the source tests [if (vectorName)], so an empty one is sent as no
    name, see [empty_vector_name_is_unnamed].) *)
Theorem searchPoints_vector_field
    (collectionName : string) (queryVector : list num) (limit : option num)
    (w : world) (log : list Event) :
  let search (vector : json num) : Event :=
    FetchCall (url config ++ "/collections/" ++ collectionName ++ "/points/search")
      {| method := Some "POST";
         headers := Some (request_headers config None);
         body := Some (JSON_stringify
                         (JObj [("limit", JNum (limit_or_default limit));
                                ("with_payload", JBool true);
                                ("vector", vector)])) |} in
  (exists outcome w',
     searchPoints config collectionName queryVector limit None (w, log)
     = (outcome, (w', (log ++ [search (JArr (map JNum queryVector))])%list)))
  /\ (forall name : string,
        name <> "" ->
        exists outcome w',
          searchPoints config collectionName queryVector limit (Some name) (w, log)
          = (outcome,
             (w', (log ++ [search (JObj [("name", JStr name);
                                         ("vector", JArr (map JNum queryVector))])])%list))).
Proof.
  intros search.
  assert (Hcall : forall vectorName,
             request config (search_path collectionName)
               (search_options
                  (search_body queryVector (limit_or_default limit) vectorName))
             = search (spec_vector queryVector vectorName)).
  { intros vectorName. unfold request, search_options, sent, search_path, search. simpl.
    rewrite search_body_vector. reflexivity. }
  split.
  - destruct (searchPoints_issues collectionName queryVector limit None w log)
      as (outcome & w' & E).
    exists outcome, w'. rewrite E, Hcall. reflexivity.
  - intros name Hname.
    destruct (searchPoints_issues collectionName queryVector limit (Some name) w log)
      as (outcome & w' & E).
    exists outcome, w'. rewrite E, Hcall. unfold spec_vector, present.
    apply String.eqb_neq in Hname. rewrite Hname. reflexivity.
Qed.








End ClientProperties.

Section ClientRuns.
Import IntegerRuntime Mock.

(** The test suite's two provisioning cases in a row: the first call
    creates the collection, the second meets the conflict. *)
Lemma createCollection_twice_in_a_row :
  (createCollection test_config "test-collection" 1536 ;;;
   createCollection test_config "test-collection" 1536) (created_then_conflict, [])
  = (inr tt,
     ({| replies := []; vectors := []; time := 0 |},
      [request test_config (collection_path "test-collection") (create_options 1536);
       request test_config (collection_path "test-collection") (create_options 1536)])).
Proof.
  refine (proj2 (proj2 (createCollection_conflict_is_success
            test_config "test-collection" 1536 created_then_conflict _ []
            _ eq_refl)) _ _ eq_refl (or_introl eq_refl) (or_intror eq_refl)).
Defined.





(** *** Boundary behaviour of the client *)

(** An empty vector name is sent as no vector name. *)
Example empty_vector_name_is_unnamed :
  search_body [1; 2; 3]%Z 5%Z (Some "") = search_body [1; 2; 3]%Z 5%Z None.
Proof. reflexivity. Qed.

(** An empty [error.message] gives way to [status.error]. *)
Example empty_message_gives_way :
  error_details
    {| ok := false; status := 500; statusText := "Internal Server Error";
       json_body := inr (JObj [("error", JObj [("message", JStr "")]);
                               ("status", JObj [("error", JStr "boom")])]) |}
  = JStr "boom".
Proof. reflexivity. Qed.

(** The test suite's error bodies carry [error] as a string: there is no
    nested field, and the text is the serialised body. *)
Example flat_error_is_serialised :
  upsertPoints test_config "test-collection" []
    (refused_with (inr (JObj [("error", JStr "server error")])), [])
  = (inl (Error ("Failed to upsert points in collection 'test-collection': {"
                 ++ dquote ++ "error" ++ dquote ++ ":" ++ dquote ++ "server error"
                 ++ dquote ++ "}")),
     (silent, [request test_config (points_path "test-collection") (upsert_options [])])).
Proof. reflexivity. Qed.

(** A body that is not JSON, or is [null], leaves the status text. *)
Example unparsable_body_leaves_status_text :
  error_details
    {| ok := false; status := 502; statusText := "Bad Gateway";
       json_body := inl (HostError "Unexpected token < in JSON at position 0") |}
  = JStr "Bad Gateway"
  /\ error_details
       {| ok := false; status := 502; statusText := "Bad Gateway";
          json_body := inr JNull |}
     = JStr "Bad Gateway".
Proof. split; reflexivity. Qed.

(** An error field that is not text has no [includes]: the search then
    fails with the runtime's TypeError instead of the client's error. *)
Example numeric_message_breaks_search :
  fst (searchPoints test_config "test-collection" [1; 2; 3]%Z None None
         (refused_with (inr (JObj [("error", JObj [("message", JNum 42%Z)])])), []))
  = inl (TypeError "errorDetails.includes is not a function").
Proof. reflexivity. Qed.

(** The search of [handleFind] on the vector named dense. *)
Lemma searchPoints_named_vector_run :
  exists outcome w',
    searchPoints test_config "test-collection" [1; 2; 3]%Z None (Some "dense")
      (missing_result, [])
    = (outcome,
       (w', [FetchCall "http://localhost:6333/collections/test-collection/points/search"
               {| method := Some "POST";
                  headers := Some [("Content-Type", "application/json");
                                   ("api-key", "test-api-key")];
                  body := Some (JSON_stringify
                                  (JObj [("limit", JNum 5%Z);
                                         ("with_payload", JBool true);
                                         ("vector",
                                          JObj [("name", JStr "dense");
                                                ("vector",
                                                 JArr [JNum 1%Z; JNum 2%Z; JNum 3%Z])])]))
               |}])).
Proof.
  assert (Hname : "dense" <> "") by discriminate.
  exact (proj2 (searchPoints_vector_field test_config "test-collection"
                  [1; 2; 3]%Z None missing_result []) "dense" Hname).
Defined.

End ClientRuns.

(** ** Properties of the server *)

Section ServerProperties.
Context `{R : JsRuntime} `{H : @Host R}.
Variable this : QdrantMCPServer.

Lemma resolve_collection_spec (collection_name : option string) (st : state) :
  resolve_collection this collection_name st
  = match spec_collection collection_name (defaultCollection this) with
    | Some collectionName => (inr collectionName, st)
    | None => (inl (Error "Collection name is required"), st)
    end.
Proof.
  unfold resolve_collection, effective_collection, or_str, spec_collection, present,
    truthy_str.
  destruct collection_name as [c |].
  - destruct (c =? "") eqn:Ec; simpl.
    + destruct (defaultCollection this) as [d |]; [| reflexivity].
      destruct (d =? ""); reflexivity.
    + rewrite Ec. reflexivity.
  - destruct (defaultCollection this) as [d |]; [| reflexivity].
    destruct (d =? ""); reflexivity.
Qed.

Lemma handleStore_resolved (information : string) (metadata : option (json num))
    (collection_name : option string) (collectionName : string) (st : state) :
  spec_collection collection_name (defaultCollection this) = Some collectionName ->
  handleStore this information metadata collection_name st
  = store_into this collectionName information metadata st.
Proof.
  intros E. unfold handleStore, bind. rewrite resolve_collection_spec, E. reflexivity.
Qed.

Lemma handleFind_resolved (query : string) (collection_name : option string)
    (vector_name : option VectorName) (collectionName : string) (st : state) :
  spec_collection collection_name (defaultCollection this) = Some collectionName ->
  handleFind this query collection_name vector_name st
  = find_in this collectionName query vector_name st.
Proof.
  intros E. unfold handleFind, bind. rewrite resolve_collection_spec, E. reflexivity.
Qed.

Lemma handleDebug_resolved (collection_name : option string) (st : state) :
  handleDebug this collection_name st
  = match spec_collection collection_name (defaultCollection this) with
    | Some collectionName => inspect this collectionName st
    | None => (inl (Error "Collection name is required"), st)
    end.
Proof.
  unfold handleDebug, bind. rewrite resolve_collection_spec.
  destruct (spec_collection collection_name (defaultCollection this)); reflexivity.
Qed.

(** C2.  In [handleStore], [handleFind] and [handleDebug] the effective
    collection name is the explicit [collection_name] argument when it is
    present, else the configured default: the handler runs on that name.
    When neither is present the handler throws the error "Collection name
    is required" and leaves the world and the log of network calls as
    they were: the failure comes before any embedding or vector-store
    request.  (A name is present when it is given and not empty, see
    [present]: the source tests the name with [||] and [!].) *)
Theorem collection_name_resolution
    (information query : string) (metadata : option (json num))
    (vector_name : option VectorName) (collection_name : option string) (st : state) :
  let runs_on (collectionName : string) : Prop :=
    handleStore this information metadata collection_name st
    = store_into this collectionName information metadata st
    /\ handleFind this query collection_name vector_name st
       = find_in this collectionName query vector_name st
    /\ handleDebug this collection_name st = inspect this collectionName st in
  (forall name, present collection_name = Some name -> runs_on name)
  /\ (forall name,
        present collection_name = None ->
        present (defaultCollection this) = Some name ->
        runs_on name)
  /\ (present collection_name = None ->
      present (defaultCollection this) = None ->
      handleStore this information metadata collection_name st
      = (inl (Error "Collection name is required"), st)
      /\ handleFind this query collection_name vector_name st
         = (inl (Error "Collection name is required"), st)
      /\ handleDebug this collection_name st
         = (inl (Error "Collection name is required"), st)).
Proof.
  intros runs_on.
  assert (Hresolved : forall name,
             spec_collection collection_name (defaultCollection this) = Some name ->
             runs_on name).
  { intros name E. unfold runs_on, handleStore, handleFind, handleDebug, bind.
    rewrite resolve_collection_spec, E. repeat split; reflexivity. }
  assert (Hfails : forall A (handler : string -> M A),
             present collection_name = None ->
             present (defaultCollection this) = None ->
             bind (resolve_collection this collection_name) handler st
             = (inl (Error "Collection name is required"), st)).
  { intros A handler E Ed. unfold bind.
    rewrite resolve_collection_spec. unfold spec_collection.
    rewrite E, Ed. reflexivity. }
  split; [| split].
  - intros name E. apply Hresolved. unfold spec_collection. rewrite E. reflexivity.
  - intros name E Ed. apply Hresolved. unfold spec_collection. rewrite E. exact Ed.
  - intros E Ed. unfold handleStore, handleFind, handleDebug.
    rewrite !(Hfails _ _ E Ed). repeat split; reflexivity.
Qed.

Lemma tool_collection_default (d : string) (collection_name : option string) :
  present (defaultCollection this) = Some d ->
  tool_collection this collection_name = Some d
  /\ spec_collection (Some d) (defaultCollection this) = Some d.
Proof.
  unfold tool_collection, or_str, truthy_str, spec_collection, present.
  destruct (defaultCollection this) as [x |]; [| discriminate].
  destruct (x =? "") eqn:Ex; [discriminate |].
  intros [= ->]. simpl. rewrite Ex. split; reflexivity.
Qed.

Lemma startup_default (process_env : string -> option string) :
  new_QdrantMCPServer process_env = inr this ->
  defaultCollection this = process_env "COLLECTION_NAME".
Proof.
  unfold new_QdrantMCPServer.
  destruct (negb (truthy_str _)); [discriminate |].
  intros [= <-]. reflexivity.
Qed.

(** C10.  When the server was started with a default collection (the
    variable COLLECTION_NAME given and not empty), the callbacks
    registered for the three tools pass that default to the operation
    whatever [collection_name] the caller supplies: the configured
    default takes precedence over the explicit argument, and each tool
    runs on the default collection. *)
Theorem registered_tools_use_default
    (process_env : string -> option string) (d : string)
    (information query : string) (metadata : option (json num))
    (vector_name : option VectorName) (collection_name : option string) (st : state) :
  new_QdrantMCPServer process_env = inr this ->
  present (process_env "COLLECTION_NAME") = Some d ->
  tool_collection this collection_name = Some d
  /\ qdrant_store this information metadata collection_name st
     = tool_result (store_into this d information metadata) st
  /\ qdrant_find this query vector_name collection_name st
     = tool_result (find_in this d query vector_name) st
  /\ qdrant_debug this collection_name st
     = tool_result (inspect this d) st.
Proof.
  intros Hstart Hd. rewrite <- (startup_default _ Hstart) in Hd.
  destruct (tool_collection_default d collection_name Hd) as [Htool Hspec].
  split; [exact Htool |].
  unfold qdrant_store, qdrant_find, qdrant_debug, tool_result, try_catch.
  rewrite Htool.
  rewrite (handleStore_resolved _ _ _ _ _ Hspec), (handleFind_resolved _ _ _ _ _ Hspec),
    handleDebug_resolved, Hspec.
  repeat split; reflexivity.
Qed.

Lemma inspect_returns (collectionName : string) (st : state) :
  exists text st',
    inspect this collectionName st = (inr [text], st')
    /\ ((exists info sampleData, debugInfo collectionName info sampleData = inr text)
        \/ (exists error, text = "Debug error: " ++ error_text error)).
Proof.
  unfold inspect, try_catch.
  match goal with
  | |- context [match ?body st with _ => _ end] => destruct (body st) as [[e | texts] st'] eqn:E
  end.
  - exists ("Debug error: " ++ error_text e), st'. split; [reflexivity |].
    right. exists e. reflexivity.
  - revert E. unfold bind, lift, ret.
    destruct (makeRequest _ _ _ st) as [[e1 | collectionInfo] s1]; [discriminate |].
    destruct (json_body collectionInfo) as [e2 | info]; [discriminate |].
    destruct (makeRequest _ _ _ s1) as [[e3 | sampleResponse] s2]; [discriminate |].
    destruct (json_body sampleResponse) as [e4 | sampleData]; [discriminate |].
    destruct (debugInfo collectionName info sampleData) as [e5 | text] eqn:Etext;
      [discriminate |].
    intros [= <- <-]. exists text, s2. split; [reflexivity |].
    left. exists info, sampleData. exact Etext.
Qed.

Lemma inspect_first_fails (collectionName : string) (w w1 : world) (log : list Event)
    (e : exn) :
  fetch (url (qdrantClient this) ++ collection_path collectionName)
        (sent (qdrantClient this) no_options) w = (inl e, w1) ->
  inspect this collectionName (w, log)
  = (inr ["Debug error: " ++ error_text e],
     (w1, (log ++ [request (qdrantClient this) (collection_path collectionName)
                     no_options])%list)).
Proof.
  intros E1. unfold inspect, try_catch, bind at 1.
  rewrite (makeRequest_run _ _ _ _ _ _ _ E1). reflexivity.
Qed.

Lemma inspect_first_unparsed (collectionName : string) (w w1 : world) (log : list Event)
    (r1 : Response) (e : exn) :
  fetch (url (qdrantClient this) ++ collection_path collectionName)
        (sent (qdrantClient this) no_options) w = (inr r1, w1) ->
  json_body r1 = inl e ->
  inspect this collectionName (w, log)
  = (inr ["Debug error: " ++ error_text e],
     (w1, (log ++ [request (qdrantClient this) (collection_path collectionName)
                     no_options])%list)).
Proof.
  intros E1 Hbody. unfold inspect, try_catch, bind at 1.
  rewrite (makeRequest_run _ _ _ _ _ _ _ E1).
  unfold bind at 1, lift. rewrite Hbody. reflexivity.
Qed.

Lemma inspect_second (collectionName : string) (w w1 w2 : world) (log : list Event)
    (r1 : Response) (info : json num) (answer : exn + Response) :
  fetch (url (qdrantClient this) ++ collection_path collectionName)
        (sent (qdrantClient this) no_options) w = (inr r1, w1) ->
  json_body r1 = inr info ->
  fetch (url (qdrantClient this) ++ scroll_path collectionName)
        (sent (qdrantClient this) scroll_options) w1 = (answer, w2) ->
  inspect this collectionName (w, log)
  = (inr [match answer with
          | inl e => "Debug error: " ++ error_text e
          | inr r2 =>
              match json_body r2 with
              | inl e => "Debug error: " ++ error_text e
              | inr sampleData =>
                  match debugInfo collectionName info sampleData with
                  | inl e => "Debug error: " ++ error_text e
                  | inr text => text
                  end
              end
          end],
     (w2, (log ++ [request (qdrantClient this) (collection_path collectionName) no_options;
                   request (qdrantClient this) (scroll_path collectionName)
                     scroll_options])%list)).
Proof.
  intros E1 Hinfo E2. unfold inspect, try_catch, bind at 1.
  rewrite (makeRequest_run _ _ _ _ _ _ _ E1).
  unfold bind at 1, lift. rewrite Hinfo.
  unfold bind at 1.
  change ("/collections/" ++ collectionName ++ "/points/scroll")
    with (scroll_path collectionName).
  change {| method := Some "POST"; headers := None;
            body := Some (JSON_stringify scroll_body) |} with scroll_options.
  rewrite (makeRequest_run _ _ _ _ _ _ _ E2).
  rewrite <- app_assoc.
  destruct answer as [e | r2]; [reflexivity |].
  unfold bind at 1. destruct (json_body r2) as [e | sampleData]; [reflexivity |].
  unfold bind at 1. destruct (debugInfo collectionName info sampleData); reflexivity.
Qed.

(** C8, as the code has it.  Once the collection name is resolved,
    every failure of the inspection is caught and comes back as the
    single text "Debug error: " followed by the message of that very
    failure, with the requests made so far logged: the request for the
    collection rejected, its answer not parsable, the request for the
    sample rejected, its answer not parsable, or the rendering of the two
    bodies throwing.  When nothing fails, the single text is the
    rendering; in every case [handleDebug] returns one text and throws
    nothing.  When no collection name is present [handleDebug] throws
    "Collection name is required" before the inspection starts, and the
    registered [qdrant-debug] callback turns that error into the text
    "Error: Collection name is required"; the callback returns a text in
    every case. *)
Theorem handleDebug_catches_inspection_failures
    (collection_name : option string) (w : world) (log : list Event) :
  let caught (failure : exn) : list string := ["Debug error: " ++ error_text failure] in
  let collection (c : string) : string := url (qdrantClient this) ++ "/collections/" ++ c in
  let sample (c : string) : string :=
    url (qdrantClient this) ++ "/collections/" ++ c ++ "/points/scroll" in
  let get_info : RequestInit :=
    {| method := None;
       headers := Some (request_headers (qdrantClient this) None);
       body := None |} in
  let get_sample : RequestInit :=
    {| method := Some "POST";
       headers := Some (request_headers (qdrantClient this) None);
       body := Some (JSON_stringify
                       (JObj [("limit", JNum (num_of_Z 5));
                              ("with_payload", JBool true);
                              ("with_vector", JBool false)])) |} in
  match spec_collection collection_name (defaultCollection this) with
  | Some c =>
      (forall failure w1,
         fetch (collection c) get_info w = (inl failure, w1) ->
         handleDebug this collection_name (w, log)
         = (inr (caught failure), (w1, (log ++ [FetchCall (collection c) get_info])%list)))
      /\ (forall r1 w1 failure,
            fetch (collection c) get_info w = (inr r1, w1) ->
            json_body r1 = inl failure ->
            handleDebug this collection_name (w, log)
            = (inr (caught failure),
               (w1, (log ++ [FetchCall (collection c) get_info])%list)))
      /\ (forall r1 w1 info,
            fetch (collection c) get_info w = (inr r1, w1) ->
            json_body r1 = inr info ->
            let calls := (log ++ [FetchCall (collection c) get_info;
                                  FetchCall (sample c) get_sample])%list in
            (forall failure w2,
               fetch (sample c) get_sample w1 = (inl failure, w2) ->
               handleDebug this collection_name (w, log)
               = (inr (caught failure), (w2, calls)))
            /\ (forall r2 w2 failure,
                  fetch (sample c) get_sample w1 = (inr r2, w2) ->
                  json_body r2 = inl failure ->
                  handleDebug this collection_name (w, log)
                  = (inr (caught failure), (w2, calls)))
            /\ (forall r2 w2 sampleData failure,
                  fetch (sample c) get_sample w1 = (inr r2, w2) ->
                  json_body r2 = inr sampleData ->
                  debugInfo c info sampleData = inl failure ->
                  handleDebug this collection_name (w, log)
                  = (inr (caught failure), (w2, calls)))
            /\ (forall r2 w2 sampleData text,
                  fetch (sample c) get_sample w1 = (inr r2, w2) ->
                  json_body r2 = inr sampleData ->
                  debugInfo c info sampleData = inr text ->
                  handleDebug this collection_name (w, log)
                  = (inr [text], (w2, calls))))
      /\ (exists text st', handleDebug this collection_name (w, log) = (inr [text], st'))
  | None =>
      handleDebug this collection_name (w, log)
      = (inl (Error "Collection name is required"), (w, log))
      /\ qdrant_debug this collection_name (w, log)
         = (inr ["Error: Collection name is required"], (w, log))
  end
  /\ exists texts st', qdrant_debug this collection_name (w, log) = (inr texts, st').
Proof.
  intros caught collection sample get_info get_sample.
  split.
  - destruct (spec_collection collection_name (defaultCollection this)) as [c |] eqn:Hname.
    + rewrite handleDebug_resolved, Hname.
      split; [| split; [| split]].
      4: { destruct (inspect_returns c (w, log)) as (text & st' & Hrun & _).
           exists text, st'. exact Hrun. }
      * intros failure w1 E1. exact (inspect_first_fails _ _ _ _ _ E1).
      * intros r1 w1 failure E1 Hbody. exact (inspect_first_unparsed _ _ _ _ _ _ E1 Hbody).
      * intros r1 w1 info E1 Hinfo calls.
        split; [| split; [| split]].
        -- intros failure w2 E2. exact (inspect_second _ _ _ _ _ _ _ _ E1 Hinfo E2).
        -- intros r2 w2 failure E2 Hbody.
           rewrite (inspect_second _ _ _ _ _ _ _ _ E1 Hinfo E2). cbv beta iota.
           rewrite Hbody. reflexivity.
        -- intros r2 w2 sampleData failure E2 Hbody Hrender.
           rewrite (inspect_second _ _ _ _ _ _ _ _ E1 Hinfo E2). cbv beta iota.
           rewrite Hbody, Hrender. reflexivity.
        -- intros r2 w2 sampleData text E2 Hbody Hrender.
           rewrite (inspect_second _ _ _ _ _ _ _ _ E1 Hinfo E2). cbv beta iota.
           rewrite Hbody, Hrender. reflexivity.
    + split.
      * rewrite handleDebug_resolved, Hname. reflexivity.
      * unfold qdrant_debug, tool_result, try_catch.
        rewrite handleDebug_resolved.
        assert (Htool : tool_collection this collection_name = collection_name).
        { revert Hname.
          unfold tool_collection, or_str, truthy_str, spec_collection, present.
          destruct collection_name as [n |].
          - destruct (n =? ""); [| discriminate].
            destruct (defaultCollection this) as [d |]; [| reflexivity].
            destruct (d =? ""); [reflexivity | discriminate].
          - destruct (defaultCollection this) as [d |]; [| reflexivity].
            destruct (d =? ""); [reflexivity | discriminate]. }
        rewrite Htool, Hname. reflexivity.
  - unfold qdrant_debug, tool_result, try_catch.
    destruct (handleDebug this (tool_collection this collection_name) (w, log))
      as [[e | texts] st']; eexists; eexists; reflexivity.
Qed.

Lemma store_confirmation_includes (collectionName pointId : string) :
  includes (store_confirmation collectionName pointId) collectionName = true
  /\ includes (store_confirmation collectionName pointId) pointId = true.
Proof.
  unfold store_confirmation. split.
  - apply includes_app.
  - replace ("Information stored successfully in collection '" ++ collectionName
             ++ "' with ID: " ++ pointId)
      with (("Information stored successfully in collection '" ++ collectionName
             ++ "' with ID: ") ++ pointId ++ "")
      by (rewrite !append_assoc, append_empty_r; reflexivity).
    apply includes_app.
Qed.

(** C3.  Every [handleStore] call that succeeds has issued exactly three
    network calls, in this order: the embedding of the information; the
    provisioning of the collection, a PUT on the collection whose body
    asks for vectors of the size of that embedding (its length) and the
    Cosine distance; and one write, a PUT on the points of the collection
    whose body holds exactly one point, with the generated id, the
    embedding as its vector and its payload.  The payload holds
    [information], [stored_at] (the clock rendered by [toISOString], the
    ISO 8601 form) and [metadata] exactly when the caller supplied it.
    The store answered the provisioning with a success or with status
    409, and accepted the write.  The confirmation text contains the
    collection name and the generated point id.  The provisioning request
    precedes the write, so a collection that did not exist is created
    first. *)
Theorem handleStore_sequence
    (information : string) (metadata : option (list (string * json num)))
    (collection_name : option string)
    (w w' : world) (log log' : list Event) (texts : list string) :
  handleStore this information (option_map JObj metadata) collection_name (w, log)
  = (inr texts, (w', log')) ->
  exists collectionName embedding others w1 created w2 now w3 date w4 written,
    let collection := url (qdrantClient this) ++ "/collections/" ++ collectionName in
    let points := url (qdrantClient this) ++ "/collections/" ++ collectionName ++ "/points" in
    let provision : RequestInit :=
      {| method := Some "PUT";
         headers := Some (request_headers (qdrantClient this) None);
         body := Some (JSON_stringify
                         (JObj [("vectors",
                                 JObj [("size", JNum (num_of_Z (Z.of_nat (length embedding))));
                                       ("distance", JStr "Cosine")])])) |} in
    let write : RequestInit :=
      {| method := Some "PUT";
         headers := Some (request_headers (qdrantClient this) None);
         body := Some (JSON_stringify
                         (JObj [("points",
                                 JArr [stored_point information metadata embedding
                                         now date])])) |} in
    spec_collection collection_name (defaultCollection this) = Some collectionName
    /\ embeddings_create (embedding_model this) information w
       = (inr (embedding :: others), w1)
    /\ fetch collection provision w1 = (inr created, w2)
    /\ (ok created = true \/ status created = 409%Z)
    /\ Date_now w2 = (now, w3)
    /\ Date_now w3 = (date, w4)
    /\ fetch points write w4 = (inr written, w')
    /\ ok written = true
    /\ log' = (log ++ [EmbeddingCall (embedding_model this) information;
                       FetchCall collection provision;
                       FetchCall points write])%list
    /\ texts = ["Information stored successfully in collection '" ++ collectionName
                ++ "' with ID: " ++ decimalZ now]
    /\ (forall text, In text texts ->
          includes text collectionName = true /\ includes text (decimalZ now) = true).
Proof.
  intros Hrun.
  destruct (spec_collection collection_name (defaultCollection this)) as [c |] eqn:Hname.
  2: { unfold handleStore, bind in Hrun. rewrite resolve_collection_spec, Hname in Hrun.
       discriminate. }
  rewrite (handleStore_resolved _ _ _ _ _ Hname) in Hrun.
  unfold store_into, bind, do_embed, lift in Hrun.
  destruct (embeddings_create (embedding_model this) information w)
    as [[e | data] w1] eqn:Eembed; [discriminate |].
  destruct data as [| embedding others]; [discriminate |].
  unfold first_embedding in Hrun.
  destruct (fetch (url (qdrantClient this) ++ collection_path c)
              (sent (qdrantClient this) (create_options (length embedding))) w1)
    as [created w2] eqn:Ecreate.
  rewrite (createCollection_run _ _ _ _ _ _ _ Ecreate) in Hrun.
  destruct created as [e | created]; [discriminate |].
  destruct (ok created || (status created =? 409)%Z) eqn:Haccepted; [| discriminate].
  unfold do_now in Hrun.
  destruct (Date_now w2) as [now w3] eqn:Enow.
  destruct (Date_now w3) as [date w4] eqn:Edate.
  assert (Hpayload :
    store_point (decimalZ now) embedding
      (store_payload information (Date_toISOString date) (option_map JObj metadata))
    = stored_point information metadata embedding now date).
  { unfold store_point, store_payload, stored_point. destruct metadata; reflexivity. }
  rewrite Hpayload in Hrun.
  destruct (fetch (url (qdrantClient this) ++ points_path c)
              (sent (qdrantClient this)
                 (upsert_options [stored_point information metadata embedding now date])) w4)
    as [written w5] eqn:Ewrite.
  rewrite (upsertPoints_run _ _ _ _ _ _ _ Ewrite) in Hrun.
  destruct written as [e | written]; [discriminate |].
  destruct (ok written) eqn:Hwritten; [| discriminate].
  unfold ret, store_confirmation in Hrun. simpl negb in Hrun. cbv beta iota in Hrun.
  injection Hrun as <- <- <-.
  exists c, embedding, others, w1, created, w2, now, w3, date, w4, written.
  cbv zeta.
  split; [reflexivity |].
  split; [reflexivity |].
  split; [exact Ecreate |].
  split.
  { apply orb_true_iff in Haccepted. destruct Haccepted as [Hok | Hconflict].
    - left. exact Hok.
    - right. apply Z.eqb_eq. exact Hconflict. }
  split; [exact Enow |].
  split; [exact Edate |].
  split; [exact Ewrite |].
  split; [exact Hwritten |].
  split; [rewrite <- !app_assoc; reflexivity |].
  split; [reflexivity |].
  intros text [<- | []].
  exact (store_confirmation_includes c (decimalZ now)).
Qed.

Lemma format_result_hit (result : json num) (index : nat) (score : num)
    (payload : json num) :
  search_hit result score payload ->
  format_result this result index = inr (result_text this index score payload).
Proof.
  intros (fields & -> & Hscore & Hpayload).
  unfold format_result, get. rewrite Hscore.
  unfold payload_of. rewrite Hpayload.
  unfold score_of, or_else, if_truthy, truthy.
  destruct (num_is_zero score) eqn:Hzero; simpl; [| reflexivity].
  unfold result_text. rewrite (toFixed_zero score 4 Hzero). reflexivity.
Qed.

Lemma map_from_hits (results : list (json num)) (hits : list (num * json num)) :
  Forall2 is_hit results hits ->
  forall index, map_from this index results = inr (hit_texts this index hits).
Proof.
  induction 1 as [| result [score payload] results hits Hhit _ IH]; intros index; simpl.
  - reflexivity.
  - rewrite (format_result_hit _ _ _ _ Hhit), IH. reflexivity.
Qed.

Lemma hit_texts_length (index : nat) (hits : list (num * json num)) :
  length (hit_texts this index hits) = length hits.
Proof.
  revert index. induction hits as [| [score payload] hits IH]; intros index; simpl;
    [reflexivity | now rewrite IH].
Qed.

Lemma hit_texts_nth (hits : list (num * json num)) :
  forall index k score payload,
    nth_error hits k = Some (score, payload) ->
    nth_error (hit_texts this index hits) k
    = Some (result_text this (index + k) score payload).
Proof.
  induction hits as [| [s0 p0] hits IH]; intros index k score payload Hk.
  - destruct k; discriminate.
  - destruct k as [| k]; simpl in *.
    + injection Hk as -> ->. rewrite Nat.add_0_r. reflexivity.
    + rewrite (IH (S index) k score payload Hk).
      replace (S index + k) with (index + S k) by lia. reflexivity.
Qed.

Lemma found_texts_state (query : string) (results : json num) (st : state) :
  snd (found_texts this query results st) = st.
Proof.
  unfold found_texts, bind, lift, ret.
  destruct (length_is_zero results); [reflexivity |].
  destruct (formattedResults this results); reflexivity.
Qed.

Lemma find_in_run (collectionName query : string) (vector_name : option VectorName)
    (w w1 w2 : world) (log : list Event) (queryVector : list num)
    (others : list (list num)) (r : exn + Response) :
  let requestBody :=
    search_body queryVector (num_of_Z 5) (option_map VectorName_string vector_name) in
  embeddings_create (embedding_model this) query w = (inr (queryVector :: others), w1) ->
  fetch (url (qdrantClient this) ++ search_path collectionName)
        (sent (qdrantClient this) (search_options requestBody)) w1 = (r, w2) ->
  find_in this collectionName query vector_name (w, log)
  = bind (searchPoints (qdrantClient this) collectionName queryVector
            (Some (num_of_Z 5)) (option_map VectorName_string vector_name))
         (found_texts this query)
         (w1, (log ++ [EmbeddingCall (embedding_model this) query])%list).
Proof.
  intros requestBody Eembed _.
  unfold find_in, bind at 1, do_embed. rewrite Eembed.
  unfold bind at 1, lift, first_embedding. reflexivity.
Qed.

(** C4.  Every [handleFind] call that resolves its collection and embeds
    its query issues one search, with result limit 5.  When the search
    yields no result the call returns exactly one message, saying that no
    relevant information was found for the query; it throws nothing.
    Otherwise it returns one message per result, in order; the message of
    the result at position [k] holds the rank [k + 1], the score of the
    result rendered by [toFixed(4)], and its payload serialised by
    [JSON.stringify] (with the payload keys before it in debug mode). *)
Theorem handleFind_messages
    (query : string) (collection_name : option string)
    (vector_name : option VectorName) (collectionName : string)
    (queryVector : list num) (others : list (list num))
    (w w1 : world) (log : list Event) :
  spec_collection collection_name (defaultCollection this) = Some collectionName ->
  embeddings_create (embedding_model this) query w = (inr (queryVector :: others), w1) ->
  let search :=
    FetchCall
      (url (qdrantClient this) ++ "/collections/" ++ collectionName ++ "/points/search")
      {| method := Some "POST";
         headers := Some (request_headers (qdrantClient this) None);
         body := Some (JSON_stringify
                         (JObj [("limit", JNum (num_of_Z 5));
                                ("with_payload", JBool true);
                                ("vector",
                                 spec_vector queryVector
                                   (option_map VectorName_string vector_name))])) |} in
  let issued := (log ++ [EmbeddingCall (embedding_model this) query; search])%list in
  snd (snd (handleFind this query collection_name vector_name (w, log))) = issued
  /\ (forall (r : Response) (w2 : world) (result : json num) (found : option (json num)),
        fetch (url (qdrantClient this) ++ search_path collectionName)
              (sent (qdrantClient this)
                 (search_options
                    (search_body queryVector (num_of_Z 5)
                       (option_map VectorName_string vector_name)))) w1
        = (inr r, w2) ->
        ok r = true ->
        json_body r = inr result ->
        get result "result" = inr found ->
        (or_else found (JArr []) = JArr [] ->
         handleFind this query collection_name vector_name (w, log)
         = (inr ["No relevant information found for query: " ++ dquote ++ query ++ dquote],
            (w2, issued)))
        /\ (forall (results : list (json num)) (hits : list (num * json num)),
              or_else found (JArr []) = JArr results ->
              results <> [] ->
              Forall2 is_hit results hits ->
              exists texts,
                handleFind this query collection_name vector_name (w, log)
                = (inr texts, (w2, issued))
                /\ length texts = length results
                /\ (forall k score payload,
                      nth_error hits k = Some (score, payload) ->
                      nth_error texts k
                      = Some ("Result " ++ decimal (k + 1)
                              ++ " (Score: " ++ Number_toFixed score 4 ++ "):" ++ nl
                              ++ (if debug_mode this
                                  then "Debug - Payload keys: "
                                       ++ join ", " (Object_keys payload) ++ nl
                                  else "")
                              ++ "Detail: " ++ JSON_stringify payload ++ nl)))).
Proof.
  intros Hname Eembed search issued.
  assert (Hfind := handleFind_resolved query collection_name vector_name collectionName
                     (w, log) Hname).
  assert (Hissued : forall log0 : list Event,
             ((log0 ++ [EmbeddingCall (embedding_model this) query])
              ++ [request (qdrantClient this) (search_path collectionName)
                    (search_options
                       (search_body queryVector (num_of_Z 5)
                          (option_map VectorName_string vector_name)))])%list
             = (log0 ++ [EmbeddingCall (embedding_model this) query; search])%list).
  { intros log0. rewrite <- app_assoc. unfold search, request, search_options, sent,
      search_path. simpl. rewrite search_body_vector. reflexivity. }
  split.
  - rewrite Hfind.
    destruct (fetch (url (qdrantClient this) ++ search_path collectionName)
                (sent (qdrantClient this)
                   (search_options
                      (search_body queryVector (num_of_Z 5)
                         (option_map VectorName_string vector_name)))) w1)
      as [r w2] eqn:Efetch.
    rewrite (find_in_run _ _ _ _ _ _ _ _ _ _ Eembed Efetch).
    unfold bind.
    rewrite (searchPoints_run (qdrantClient this) collectionName queryVector
               (Some (num_of_Z 5)) _ w1 _ _ w2 Efetch).
    match goal with
    | |- context [match ?outcome with inl _ => _ | inr _ => _ end] =>
        destruct outcome as [e | results]
    end.
    + simpl. apply Hissued.
    + rewrite found_texts_state. simpl. apply Hissued.
  - intros r w2 result found Efetch Hok Hbody Hfound.
    rewrite Hfind, (find_in_run _ _ _ _ _ _ _ _ _ _ Eembed Efetch).
    unfold bind.
    rewrite (searchPoints_run (qdrantClient this) collectionName queryVector
               (Some (num_of_Z 5)) _ w1 _ _ w2 Efetch).
    cbv beta iota. rewrite Hok, Hbody, Hfound. simpl negb. cbv beta iota.
    rewrite Hissued. fold issued.
    split.
    + intros ->. reflexivity.
    + intros results hits -> Hne Hhits.
      exists (hit_texts this 0 hits).
      unfold found_texts, bind, lift, ret.
      destruct results as [| x results]; [contradiction |].
      change (length_is_zero (JArr (x :: results))) with false. cbv beta iota.
      unfold formattedResults. rewrite (map_from_hits _ _ Hhits 0).
      split; [reflexivity | split].
      * rewrite hit_texts_length. symmetry. apply (Forall2_length Hhits).
      * intros k score payload Hk. apply (hit_texts_nth hits 0 k score payload Hk).
Qed.

End ServerProperties.

Section ServerRuns.
Import IntegerRuntime Mock.

(** [handleDebug] called with no collection name, or with an empty
    one, on a server that has no default: the error reaches the caller,
    and no request was made. *)
Lemma handleDebug_raises_without_name :
  handleDebug (H := host) (server_with None) None (silent, [])
  = (inl (Error "Collection name is required"), (silent, []))
  /\ handleDebug (H := host) (server_with None) (Some "") (silent, [])
     = (inl (Error "Collection name is required"), (silent, [])).
Proof.
  split; reflexivity.
Qed.

(** A sample that does not parse: the failure of [response.json()] is
    the text [handleDebug] returns, after both requests. *)
Lemma handleDebug_garbled_sample_run :
  handleDebug (H := host) (server_with None) (Some "C") (Scenes.garbled_sample, [])
  = (inr ["Debug error: Unexpected end of JSON input"],
     (silent,
      [FetchCall "http://localhost:6333/collections/C"
         {| method := None;
            headers := Some [("Content-Type", "application/json")];
            body := None |};
       FetchCall "http://localhost:6333/collections/C/points/scroll"
         {| method := Some "POST";
            headers := Some [("Content-Type", "application/json")];
            body := Some (JSON_stringify
                            (JObj [("limit", JNum 5%Z);
                                   ("with_payload", JBool true);
                                   ("with_vector", JBool false)])) |}])).
Proof.
  destruct (handleDebug_catches_inspection_failures (H := host) (server_with None)
              (Some "C") Scenes.garbled_sample [])
    as [(_ & _ & Hsample & _) _].
  destruct (Hsample _ _ _ eq_refl eq_refl) as (_ & Hunparsed & _).
  exact (Hunparsed _ _ _ eq_refl eq_refl).
Defined.

(** The registered callback turns that error into a text. *)
Example qdrant_debug_reports_missing_name :
  qdrant_debug (H := host) (server_with None) None (silent, [])
  = (inr ["Error: Collection name is required"], (silent, [])).
Proof. reflexivity. Qed.

(** A store that cannot be reached: the inspection fails inside the
    [try] block and [handleDebug] returns the diagnostic text. *)
Example handleDebug_reports_unreachable_store :
  fst (handleDebug (H := host) (server_with None) (Some "C") (silent, []))
  = inr ["Debug error: fetch failed"].
Proof. reflexivity. Qed.

(** With the default "memories" configured: an explicit name wins, no
    name falls back to the default; with nothing configured and no name,
    the handlers throw at once. *)
Lemma collection_name_resolution_run :
  handleDebug (H := host) (server_with (Some "memories")) (Some "notes") (silent, [])
  = inspect (server_with (Some "memories")) "notes" (silent, [])
  /\ handleDebug (H := host) (server_with (Some "memories")) None (silent, [])
     = inspect (server_with (Some "memories")) "memories" (silent, [])
  /\ handleStore (H := host) (server_with None) "hello" None None (first_store, [])
     = (inl (Error "Collection name is required"), (first_store, [])).
Proof.
  split; [| split].
  - exact (proj2 (proj2 (proj1 (collection_name_resolution (H := host)
                                  (server_with (Some "memories")) "" "" None None
                                  (Some "notes") (silent, []))
                           "notes" eq_refl))).
  - exact (proj2 (proj2 (proj1 (proj2 (collection_name_resolution (H := host)
                                         (server_with (Some "memories")) "" "" None None
                                         None (silent, [])))
                           "memories" eq_refl eq_refl))).
  - exact (proj1 (proj2 (proj2 (collection_name_resolution (H := host)
                                  (server_with None) "hello" "" None None
                                  None (first_store, [])))
                    eq_refl eq_refl)).
Defined.

(** An empty explicit name gives way to the default. *)
Example empty_name_gives_way_to_default :
  effective_collection (server_with (Some "memories")) (Some "") = Some "memories"
  /\ effective_collection (server_with (Some "memories")) (Some "notes") = Some "notes".
Proof. split; reflexivity. Qed.

(** A server started with COLLECTION_NAME=memories ignores the
    collection the caller names. *)
Lemma registered_tools_use_default_run :
  new_QdrantMCPServer startup_env = inr started
  /\ tool_collection started (Some "other") = Some "memories"
  /\ qdrant_debug (H := host) started (Some "other") (silent, [])
     = tool_result (inspect started "memories") (silent, []).
Proof.
  split; [reflexivity |].
  destruct (registered_tools_use_default (H := host) started startup_env "memories"
              "" "" None None (Some "other") (silent, []) eq_refl eq_refl)
    as (Hname & _ & _ & Hdebug).
  exact (conj Hname Hdebug).
Defined.

(** Storing "hello" with metadata into the collection C, which the
    store creates on the way. *)
Lemma handleStore_first_store_run :
  handleStore (H := host) (server_with None) "hello"
    (option_map JObj (Some [("topic", JStr "greeting")])) (Some "C") (first_store, [])
  = (inr ["Information stored successfully in collection 'C' with ID: 1700000000000"],
     ({| replies := []; vectors := []; time := 1700000000002 |}, first_store_calls))
  /\ exists collectionName embedding now date,
       spec_collection (Some "C") None = Some collectionName
       /\ first_store_calls
          = [EmbeddingCall "text-embedding-3-small" "hello";
             FetchCall ("http://localhost:6333" ++ "/collections/" ++ collectionName)
               {| method := Some "PUT";
                  headers := Some [("Content-Type", "application/json")];
                  body := Some (JSON_stringify
                                  (JObj [("vectors",
                                          JObj [("size",
                                                 JNum (Z.of_nat (length embedding)));
                                                ("distance", JStr "Cosine")])])) |};
             FetchCall ("http://localhost:6333" ++ "/collections/" ++ collectionName
                        ++ "/points")
               {| method := Some "PUT";
                  headers := Some [("Content-Type", "application/json")];
                  body := Some (JSON_stringify
                                  (JObj [("points",
                                          JArr [stored_point "hello"
                                                  (Some [("topic", JStr "greeting")])
                                                  embedding now date])])) |}].
Proof.
  split; [reflexivity |].
  destruct (handleStore_sequence (H := host) (server_with None) "hello"
              (Some [("topic", JStr "greeting")]) (Some "C") first_store _ [] _ _ eq_refl)
    as (c & embedding & others & w1 & created & w2 & now & w3 & date & w4 & written & Hs).
  cbv zeta in Hs.
  destruct Hs as (Hname & _ & _ & _ & _ & _ & _ & _ & Hlog & _).
  exists c, embedding, now, date. exact (conj Hname Hlog).
Defined.

(** The test suite's search results through [handleFind]: an empty
    answer gives the single no-result message, one hit gives one
    message. *)
Lemma handleFind_messages_run :
  handleFind (H := host) (server_with None) "unknown topic" (Some "C") (Some dense)
    (missing_result, [])
  = (inr ["No relevant information found for query: " ++ dquote ++ "unknown topic"
          ++ dquote],
     ({| replies := []; vectors := []; time := 0 |},
      [EmbeddingCall "text-embedding-3-small" "unknown topic";
       request (qdrantClient (server_with None)) (search_path "C")
         (search_options (search_body [1; 2; 3]%Z 5%Z (Some "dense")))]))
  /\ exists texts,
       fst (handleFind (H := host) (server_with None) "test" (Some "C") (Some dense)
              (one_hit, []))
       = inr texts
       /\ length texts = 1
       /\ nth_error texts 0
          = Some ("Result 1 (Score: 1.0000):" ++ nl ++ "Detail: "
                  ++ JSON_stringify (JObj [("information", JStr "test information")])
                  ++ nl).
Proof.
  split.
  - exact (proj1 (proj2 (handleFind_messages (H := host) (server_with None) "unknown topic"
                           (Some "C") (Some dense) "C" [1; 2; 3]%Z [] missing_result _ []
                           eq_refl eq_refl)
                    _ _ _ _ eq_refl eq_refl eq_refl eq_refl) eq_refl).
  - assert (Hhits : Forall2 (is_hit (R := runtime)) [test_hit]
                      [(1%Z, JObj [("information", JStr "test information")])]).
    { constructor; [| constructor].
      exists [("id", JStr "1"); ("score", JNum 1%Z);
              ("payload", JObj [("information", JStr "test information")])].
      repeat split. }
    assert (Hne : [test_hit] <> []) by discriminate.
    destruct (proj2 (proj2 (handleFind_messages (H := host) (server_with None) "test"
                              (Some "C") (Some dense) "C" [1; 2; 3]%Z [] one_hit _ []
                              eq_refl eq_refl)
                       _ _ _ _ eq_refl eq_refl eq_refl eq_refl)
                [test_hit] _ eq_refl Hne Hhits)
      as (texts & Hrun & Hlength & Hnth).
    exists texts. split; [exact (f_equal fst Hrun) | split; [exact Hlength |]].
    exact (Hnth 0 1%Z _ eq_refl).
Defined.

End ServerRuns.

(** ** Further properties of the client *)

Section ClientBehaviour.
Context `{R : JsRuntime} `{H : @Host R}.
Variable config : QdrantConfig.

Lemma assoc_set_header_same (k v : string) (hs : list (string * string)) :
  assoc k (set_header k v hs) = Some v.
Proof.
  induction hs as [| [k0 v0] hs IH]; simpl.
  - rewrite String.eqb_refl. reflexivity.
  - destruct (k0 =? k) eqn:E; simpl.
    + rewrite String.eqb_refl. reflexivity.
    + rewrite E. exact IH.
Qed.

Lemma assoc_set_header_other (k k' v : string) (hs : list (string * string)) :
  k' <> k -> assoc k' (set_header k v hs) = assoc k' hs.
Proof.
  intros Hneq.
  assert (Hkk : (k =? k') = false) by (apply String.eqb_neq; congruence).
  induction hs as [| [k0 v0] hs IH]; simpl.
  - rewrite Hkk. reflexivity.
  - destruct (k0 =? k) eqn:E; simpl.
    + apply String.eqb_eq in E. subst k0. rewrite Hkk. reflexivity.
    + destruct (k0 =? k'); [reflexivity | exact IH].
Qed.

Lemma assoc_fold_absent (k : string) (given acc : list (string * string)) :
  ~ In k (map fst given) ->
  assoc k (fold_left (fun a kv => set_header (fst kv) (snd kv) a) given acc)
  = assoc k acc.
Proof.
  revert acc. induction given as [| [k0 v0] given IH]; intros acc Hnot; simpl.
  - reflexivity.
  - rewrite IH by (intros Hin; apply Hnot; right; exact Hin).
    apply assoc_set_header_other. intros ->. apply Hnot. left. reflexivity.
Qed.

Lemma assoc_fold_present (k v : string) (given acc : list (string * string)) :
  NoDup (map fst given) ->
  assoc k given = Some v ->
  assoc k (fold_left (fun a kv => set_header (fst kv) (snd kv) a) given acc) = Some v.
Proof.
  revert acc. induction given as [| [k0 v0] given IH]; intros acc Hdistinct Hk; simpl in *.
  - discriminate.
  - inversion Hdistinct as [| ? ? Hfresh Hrest]; subst.
    destruct (k0 =? k) eqn:E.
    + apply String.eqb_eq in E. subst k0. injection Hk as ->.
      rewrite (assoc_fold_absent _ _ _ Hfresh). apply assoc_set_header_same.
    + apply IH; assumption.
Qed.

Lemma assoc_absent (k : string) (given : list (string * string)) :
  assoc k given = None -> ~ In k (map fst given).
Proof.
  induction given as [| [k0 v0] given IH]; simpl; intros Hk Hin.
  - exact Hin.
  - destruct (k0 =? k) eqn:E; [discriminate |].
    destruct Hin as [-> | Hin]; [rewrite String.eqb_refl in E; discriminate |].
    exact (IH Hk Hin).
Qed.

(** The headers of the caller, merged over the default content type. *)
Lemma merged_headers_lookup (k : string) (given : option (list (string * string))) :
  NoDup (map fst (match given with Some hs => hs | None => [] end)) ->
  assoc k (merged_headers given)
  = match assoc k (match given with Some hs => hs | None => [] end) with
    | Some v => Some v
    | None => if k =? "Content-Type" then Some "application/json" else None
    end.
Proof.
  intros Hdistinct. unfold merged_headers.
  destruct (assoc k (match given with Some hs => hs | None => [] end)) as [v |] eqn:Hk.
  - apply assoc_fold_present; assumption.
  - rewrite (assoc_fold_absent _ _ _ (assoc_absent _ _ Hk)). simpl.
    rewrite String.eqb_sym. reflexivity.
Qed.

(** X1.  [makeRequest] issues one call to the configured address followed
    by the endpoint, with the caller's method and body untouched.  Its
    headers are the caller's over the default content type
    application/json; when the client has an API key, the header
    [api-key] carries that key, also when the caller brought its own
    [api-key] header; when it has none, it adds no such header. *)
Theorem makeRequest_headers
    (endpoint : string) (options : RequestInit) (w : world) (log : list Event) :
  let given := match headers options with Some hs => hs | None => [] end in
  NoDup (map fst given) ->
  exists outcome w' sent_headers,
    makeRequest config endpoint options (w, log)
    = (outcome,
       (w', (log ++ [FetchCall (url config ++ endpoint)
                       {| method := method options;
                          headers := Some sent_headers;
                          body := body options |}])%list))
    /\ assoc "api-key" sent_headers
       = match present (apiKey config) with
         | Some key => Some key
         | None => assoc "api-key" given
         end
    /\ assoc "Content-Type" sent_headers
       = match assoc "Content-Type" given with
         | Some v => Some v
         | None => Some "application/json"
         end
    /\ (forall k, k <> "api-key" -> k <> "Content-Type" ->
          assoc k sent_headers = assoc k given).
Proof.
  intros given Hdistinct.
  destruct (fetch (url config ++ endpoint) (sent config options) w) as [outcome w'] eqn:E.
  exists outcome, w', (request_headers config (headers options)).
  split; [exact (makeRequest_run config _ _ _ _ _ _ E) |].
  assert (Hother : forall k, k <> "api-key" ->
             assoc k (request_headers config (headers options))
             = assoc k (merged_headers (headers options))).
  { intros k Hk. unfold request_headers.
    destruct (apiKey config) as [key |]; [| reflexivity].
    destruct (negb (key =? "")); [| reflexivity].
    apply assoc_set_header_other, Hk. }
  split; [| split].
  - unfold request_headers, present.
    destruct (apiKey config) as [key |].
    + destruct (key =? ""); simpl.
      * rewrite merged_headers_lookup by exact Hdistinct. fold given.
        destruct (assoc "api-key" given); reflexivity.
      * apply assoc_set_header_same.
    + rewrite merged_headers_lookup by exact Hdistinct. fold given.
      destruct (assoc "api-key" given); reflexivity.
  - rewrite Hother by discriminate.
    rewrite merged_headers_lookup by exact Hdistinct. fold given.
    destruct (assoc "Content-Type" given); reflexivity.
  - intros k Hkey Hct. rewrite (Hother k Hkey).
    rewrite merged_headers_lookup by exact Hdistinct. fold given.
    destruct (assoc k given); [reflexivity |].
    apply String.eqb_neq in Hct. rewrite Hct. reflexivity.
Qed.

(** X2.  [createCollection] and [upsertPoints] each issue exactly one
    request, whatever the store answers: a PUT on the collection with the
    given size and the Cosine distance, and a PUT on its points whose body
    is the serialisation of the points as they were given.  Nothing is
    sent again after a failure. *)
Theorem client_writes_send_one_request
    (collectionName : string) (vectorSize : nat) (points : list (json num))
    (w : world) (log : list Event) :
  (exists outcome w',
     createCollection config collectionName vectorSize (w, log)
     = (outcome,
        (w', (log ++ [FetchCall (url config ++ "/collections/" ++ collectionName)
                        {| method := Some "PUT";
                           headers := Some (request_headers config None);
                           body := Some (JSON_stringify
                                           (JObj [("vectors",
                                                   JObj [("size",
                                                          JNum (num_of_Z
                                                                  (Z.of_nat vectorSize)));
                                                         ("distance", JStr "Cosine")])]))
                        |}])%list)))
  /\ (exists outcome w',
        upsertPoints config collectionName points (w, log)
        = (outcome,
           (w', (log ++ [FetchCall
                           (url config ++ "/collections/" ++ collectionName ++ "/points")
                           {| method := Some "PUT";
                              headers := Some (request_headers config None);
                              body := Some (JSON_stringify
                                              (JObj [("points", JArr points)])) |}
                        ])%list))).
Proof.
  split.
  - destruct (fetch (url config ++ collection_path collectionName)
                (sent config (create_options vectorSize)) w) as [r w'] eqn:E.
    eexists. exists w'. rewrite (createCollection_run config _ _ _ _ _ _ E). reflexivity.
  - destruct (fetch (url config ++ points_path collectionName)
                (sent config (upsert_options points)) w) as [r w'] eqn:E.
    eexists. exists w'. rewrite (upsertPoints_run config _ _ _ _ _ _ E). reflexivity.
Qed.

(** X3.  When [fetch] itself rejects the request of an operation (the
    store cannot be reached), the operation rejects with that same error,
    not wrapped in a message of its own, and its one request is the only
    call it made.  This holds for each of the three client operations. *)
Theorem transport_failure_passes_through
    (collectionName : string) (vectorSize : nat) (points : list (json num))
    (queryVector : list num) (limit : option num) (vectorName : option string)
    (w w' : world) (log : list Event) (e : exn) :
  let requestBody := search_body queryVector (limit_or_default limit) vectorName in
  (fetch (url config ++ collection_path collectionName)
         (sent config (create_options vectorSize)) w = (inl e, w') ->
   createCollection config collectionName vectorSize (w, log)
   = (inl e, (w', (log ++ [request config (collection_path collectionName)
                             (create_options vectorSize)])%list)))
  /\ (fetch (url config ++ points_path collectionName)
            (sent config (upsert_options points)) w = (inl e, w') ->
      upsertPoints config collectionName points (w, log)
      = (inl e, (w', (log ++ [request config (points_path collectionName)
                                (upsert_options points)])%list)))
  /\ (fetch (url config ++ search_path collectionName)
            (sent config (search_options requestBody)) w = (inl e, w') ->
      searchPoints config collectionName queryVector limit vectorName (w, log)
      = (inl e, (w', (log ++ [request config (search_path collectionName)
                                (search_options requestBody)])%list))).
Proof.
  intros requestBody. split; [| split]; intros Hdown.
  - rewrite (createCollection_run config _ _ _ _ _ _ Hdown). reflexivity.
  - rewrite (upsertPoints_run config _ _ _ _ _ _ Hdown). reflexivity.
  - rewrite (searchPoints_run config _ _ _ _ _ _ _ _ Hdown). reflexivity.
Qed.

(** X4.  [upsertPoints] returns normally exactly when the response to
    its request is [ok]: status 409, which [createCollection] accepts, is
    a failure for a write.  [searchPoints] returns results only from an
    [ok] response to its request, whatever the body of a refused one
    holds. *)
Theorem only_ok_answers_succeed
    (collectionName : string) (points : list (json num))
    (queryVector : list num) (limit : option num) (vectorName : option string)
    (w w' : world) (log : list Event) (r : Response) :
  (fetch (url config ++ points_path collectionName)
         (sent config (upsert_options points)) w = (inr r, w') ->
   (fst (upsertPoints config collectionName points (w, log)) = inr tt <-> ok r = true))
  /\ (fetch (url config ++ search_path collectionName)
            (sent config (search_options
               (search_body queryVector (limit_or_default limit) vectorName))) w
      = (inr r, w') ->
      forall results,
        fst (searchPoints config collectionName queryVector limit vectorName (w, log))
        = inr results ->
        ok r = true).
Proof.
  split; intros Hanswer.
  - rewrite (upsertPoints_run config _ _ _ _ _ _ Hanswer).
    cbv beta iota. simpl fst.
    destruct (ok r); simpl negb; cbv beta iota; split; first [reflexivity | discriminate].
  - rewrite (searchPoints_run config _ _ _ _ _ _ _ _ Hanswer).
    cbv beta iota. simpl fst.
    destruct (ok r); simpl negb; cbv beta iota; [reflexivity |].
    intros results. destruct (hinted_details _ _); discriminate.
Qed.

(** X5.  From an [ok] response to its request [searchPoints] returns the
    [result] array exactly as the store sent it: same elements, same
    order, not cut to the limit.  A [result] that is falsy ([null],
    [false], 0, the empty string) gives the empty array.  A body that is
    [null] or cannot be parsed makes the call throw: only the error path
    of the client is guarded. *)
Theorem searchPoints_success_body
    (collectionName : string) (queryVector : list num) (limit : option num)
    (vectorName : option string) (w w' : world) (log : list Event) (r : Response) :
  fetch (url config ++ search_path collectionName)
        (sent config (search_options
           (search_body queryVector (limit_or_default limit) vectorName))) w
  = (inr r, w') ->
  ok r = true ->
  let outcome :=
    fst (searchPoints config collectionName queryVector limit vectorName (w, log)) in
  (forall fields results,
     json_body r = inr (JObj fields) ->
     assoc "result" fields = Some (JArr results) ->
     outcome = inr (JArr results))
  /\ (forall fields v,
        json_body r = inr (JObj fields) ->
        assoc "result" fields = Some v ->
        truthy v = false ->
        outcome = inr (JArr []))
  /\ (json_body r = inr JNull ->
      outcome = inl (TypeError "Cannot read properties of null (reading 'result')"))
  /\ (forall e, json_body r = inl e -> outcome = inl e).
Proof.
  intros Hanswer Hok outcome. unfold outcome.
  rewrite (searchPoints_run config _ _ _ _ _ _ _ _ Hanswer).
  cbv beta iota. simpl fst. rewrite Hok. simpl negb. cbv beta iota.
  repeat split.
  - intros fields results -> Hresult. simpl. rewrite Hresult. reflexivity.
  - intros fields v -> Hresult Hfalsy. simpl. rewrite Hresult.
    unfold or_else, if_truthy. rewrite Hfalsy. reflexivity.
  - intros ->. reflexivity.
  - intros e ->. reflexivity.
Qed.

(** X6.  An error body that carries [error] as a plain string, with no
    [status] object, has neither nested field: the text of the failure is
    then the whole body serialised, not that string. *)
Theorem flat_error_field_is_not_read
    (r : Response) (fields : list (string * json num)) (text : string) :
  json_body r = inr (JObj fields) ->
  assoc "error" fields = Some (JStr text) ->
  assoc "status" fields = None ->
  error_details r = JStr (JSON_stringify (JObj fields)).
Proof.
  intros Hbody Herror Hstatus. unfold error_details, pick_error_details.
  rewrite Hbody. simpl. rewrite Herror, Hstatus. simpl.
  destruct text as [| a text]; reflexivity.
Qed.

End ClientBehaviour.

Section ClientBehaviourRuns.
Import IntegerRuntime Mock Scenes.

(** A caller's own [api-key] header is replaced by the client's key; its
    other headers pass, and the content type is added. *)
Lemma makeRequest_headers_run :
  exists outcome w' sent_headers,
    makeRequest (H := host) test_config "/collections" own_headers (silent, [])
    = (outcome,
       (w', [FetchCall "http://localhost:6333/collections"
               {| method := Some "GET"; headers := Some sent_headers; body := None |}]))
    /\ assoc "api-key" sent_headers = Some "test-api-key"
    /\ assoc "Content-Type" sent_headers = Some "application/json"
    /\ assoc "Accept" sent_headers = Some "application/json".
Proof.
  assert (Hdistinct : NoDup (map fst [("api-key", "callers-key");
                                      ("Accept", "application/json")])).
  { repeat constructor; simpl; intuition discriminate. }
  destruct (makeRequest_headers (H := host) test_config "/collections" own_headers silent []
              Hdistinct)
    as (outcome & w' & sent_headers & Hrun & Hkey & Hct & Hother).
  exists outcome, w', sent_headers.
  split; [exact Hrun | split; [exact Hkey | split; [exact Hct |]]].
  assert (H1 : "Accept" <> "api-key") by discriminate.
  assert (H2 : "Accept" <> "Content-Type") by discriminate.
  exact (Hother "Accept" H1 H2).
Defined.

(** An unreachable store: the error of [fetch] is what the caller gets. *)
Lemma transport_failure_run :
  createCollection test_config "test-collection" 3 (silent, [])
  = (inl (HostError "fetch failed"),
     (silent, [request test_config (collection_path "test-collection") (create_options 3)]))
  /\ upsertPoints test_config "test-collection" [] (silent, [])
     = (inl (HostError "fetch failed"),
        (silent, [request test_config (points_path "test-collection") (upsert_options [])]))
  /\ searchPoints test_config "test-collection" [1; 2; 3]%Z None None (silent, [])
     = (inl (HostError "fetch failed"),
        (silent, [request test_config (search_path "test-collection")
                    (search_options (search_body [1; 2; 3]%Z 5%Z None))])).
Proof.
  destruct (transport_failure_passes_through (H := host) test_config "test-collection" 3 []
              [1; 2; 3]%Z None None silent silent [] (HostError "fetch failed"))
    as (Hcreate & Hupsert & Hsearch).
  exact (conj (Hcreate eq_refl) (conj (Hupsert eq_refl) (Hsearch eq_refl))).
Defined.

(** Status 409 on a write is an error. *)
Lemma conflict_on_write_run :
  replies conflict = [inr conflict_answer]
  /\ ok conflict_answer = false
  /\ (fst (upsertPoints test_config "test-collection" [] (conflict, [])) = inr tt
      <-> ok conflict_answer = true).
Proof.
  split; [reflexivity | split; [reflexivity |]].
  exact (proj1 (only_ok_answers_succeed (H := host) test_config "test-collection" []
                  [1; 2; 3]%Z None None conflict _ [] conflict_answer) eq_refl).
Defined.

(** Three hits come back in the order of the store, with a limit of 2. *)
Lemma searchPoints_keeps_ranking_run :
  fst (searchPoints test_config "test-collection" [1; 2; 3]%Z (Some 2%Z) None
         (three_hits, []))
  = inr (JArr ranked_hits).
Proof.
  exact (proj1 (searchPoints_success_body (H := host) test_config "test-collection" [1; 2; 3]%Z
                  (Some 2%Z) None three_hits _ [] _ eq_refl eq_refl)
           _ ranked_hits eq_refl eq_refl).
Defined.

(** The error body of the test suite's mocked 500 answer. *)
Lemma flat_error_field_run :
  error_details
    {| ok := false; status := 500; statusText := "Internal Server Error";
       json_body := inr (JObj [("error", JStr "server error")]) |}
  = JStr (JSON_stringify (JObj [("error", JStr "server error")])).
Proof.
  exact (flat_error_field_is_not_read
           {| ok := false; status := 500; statusText := "Internal Server Error";
              json_body := inr (JObj [("error", JStr "server error")]) |}
           [("error", JStr "server error")] "server error" eq_refl eq_refl eq_refl).
Defined.

End ClientBehaviourRuns.

(** ** Further properties of the server *)

Section ServerBehaviour.
Context `{R : JsRuntime} `{H : @Host R}.
Variable this : QdrantMCPServer.


Lemma store_into_embedded (collectionName information : string)
    (metadata : option (json num)) (w w1 : world) (log : list Event)
    (embedding : list num) (others : list (list num)) :
  embeddings_create (embedding_model this) information w
  = (inr (embedding :: others), w1) ->
  store_into this collectionName information metadata (w, log)
  = (createCollection (qdrantClient this) collectionName (length embedding) ;;;
     now <- do_now ;;
     date <- do_now ;;
     upsertPoints (qdrantClient this) collectionName
       [store_point (decimalZ now) embedding
          (store_payload information (Date_toISOString date) metadata)] ;;;
     ret [store_confirmation collectionName (decimalZ now)])
      (w1, (log ++ [EmbeddingCall (embedding_model this) information])%list).
Proof.
  intros E. unfold store_into, bind at 1, do_embed. rewrite E.
  unfold bind at 1, lift, first_embedding. reflexivity.
Qed.



(** X17.  [handleStore] succeeds whenever the embedding provider answers
    with a vector, the store answers the provisioning with a success or
    with 409, and accepts the point: a store into a collection that is
    already there works like the first one.  The caller gets the single
    confirmation text, and exactly the three calls were made. *)
Theorem handleStore_into_existing_collection
    (information : string) (metadata : option (json num))
    (collection_name : option string) (collectionName : string)
    (w w1 w2 w3 w4 w5 : world) (log : list Event)
    (embedding : list num) (others : list (list num)) (created written : Response)
    (now date : Z) :
  let point := store_point (decimalZ now) embedding
                 (store_payload information (Date_toISOString date) metadata) in
  spec_collection collection_name (defaultCollection this) = Some collectionName ->
  embeddings_create (embedding_model this) information w
  = (inr (embedding :: others), w1) ->
  fetch (url (qdrantClient this) ++ collection_path collectionName)
        (sent (qdrantClient this) (create_options (length embedding))) w1
  = (inr created, w2) ->
  ok created = true \/ status created = 409%Z ->
  Date_now w2 = (now, w3) ->
  Date_now w3 = (date, w4) ->
  fetch (url (qdrantClient this) ++ points_path collectionName)
        (sent (qdrantClient this) (upsert_options [point])) w4 = (inr written, w5) ->
  ok written = true ->
  handleStore this information metadata collection_name (w, log)
  = (inr ["Information stored successfully in collection '" ++ collectionName
          ++ "' with ID: " ++ decimalZ now],
     (w5, (log ++ [EmbeddingCall (embedding_model this) information;
                   request (qdrantClient this) (collection_path collectionName)
                     (create_options (length embedding));
                   request (qdrantClient this) (points_path collectionName)
                     (upsert_options [point])])%list)).
Proof.
  intros point Hname Eembed Ecreate Haccepted Enow Edate Ewrite Hok.
  rewrite (handleStore_resolved this _ _ _ _ _ Hname).
  rewrite (store_into_embedded _ _ _ _ _ _ _ _ Eembed). unfold bind at 1.
  rewrite (createCollection_run _ _ _ _ _ _ _ Ecreate). cbv beta iota.
  assert (Hacc : ok created || (status created =? 409)%Z = true).
  { destruct Haccepted as [-> | ->]; [reflexivity |].
    rewrite Z.eqb_refl. apply orb_true_r. }
  rewrite Hacc. cbv beta iota.
  unfold bind at 1, do_now at 1. rewrite Enow.
  unfold bind at 1, do_now at 1. rewrite Edate.
  unfold bind at 1. fold point.
  rewrite (upsertPoints_run _ _ _ _ _ _ _ Ewrite). cbv beta iota.
  rewrite Hok. simpl negb. cbv beta iota.
  rewrite <- !app_assoc. reflexivity.
Qed.


(** X8.  [handleFind] only reads.  Whatever happens, the calls it adds
    to the log are none (no collection name), the embedding call alone
    (the embedding failed), or the embedding call followed by one POST to
    the search endpoint: it never creates a collection and never writes a
    point. *)
Theorem handleFind_only_reads
    (query : string) (collection_name : option string)
    (vector_name : option VectorName) (w : world) (log : list Event) :
  let final := snd (snd (handleFind this query collection_name vector_name (w, log))) in
  final = log
  \/ final = (log ++ [EmbeddingCall (embedding_model this) query])%list
  \/ exists collectionName queryVector,
       spec_collection collection_name (defaultCollection this) = Some collectionName
       /\ final
          = (log ++ [EmbeddingCall (embedding_model this) query;
                     request (qdrantClient this) (search_path collectionName)
                       (search_options
                          (search_body queryVector (num_of_Z 5)
                             (option_map VectorName_string vector_name)))])%list.
Proof.
  intros final. unfold final. clear final.
  destruct (spec_collection collection_name (defaultCollection this)) as [c |] eqn:Hname.
  2: { left. unfold handleFind, bind. rewrite resolve_collection_spec, Hname. reflexivity. }
  rewrite (handleFind_resolved this _ _ _ _ _ Hname).
  destruct (embeddings_create (embedding_model this) query w) as [[e | data] w1] eqn:Eembed.
  { right. left. unfold find_in, bind at 1, do_embed. rewrite Eembed. reflexivity. }
  destruct data as [| queryVector others].
  { right. left. unfold find_in, bind at 1, do_embed. rewrite Eembed.
    unfold bind at 1, lift, first_embedding. reflexivity. }
  right. right. exists c, queryVector. split; [reflexivity |].
  destruct (fetch (url (qdrantClient this) ++ search_path c)
              (sent (qdrantClient this)
                 (search_options
                    (search_body queryVector (num_of_Z 5)
                       (option_map VectorName_string vector_name)))) w1)
    as [r w2] eqn:Efetch.
  rewrite (find_in_run this _ _ _ _ _ _ _ _ _ _ Eembed Efetch).
  unfold bind.
  rewrite (searchPoints_run (qdrantClient this) c queryVector
             (Some (num_of_Z 5)) _ w1 _ _ w2 Efetch).
  match goal with
  | |- context [match ?outcome with inl _ => _ | inr _ => _ end] =>
      destruct outcome as [e | results]
  end.
  - simpl. rewrite <- app_assoc. reflexivity.
  - rewrite (found_texts_state this). simpl. rewrite <- app_assoc. reflexivity.
Qed.

(** X9.  [handleDebug] only reads, and reads little: the calls it adds to
    the log are none (no collection name), one GET of the collection (the
    answer could not be obtained or parsed), or that GET followed by one
    POST to the scroll endpoint asking for 5 points with payload and
    without vectors.  It never calls the embedding provider. *)
Theorem handleDebug_only_reads
    (collection_name : option string) (w : world) (log : list Event) :
  let final := snd (snd (handleDebug this collection_name (w, log))) in
  let info (collectionName : string) : Event :=
    FetchCall (url (qdrantClient this) ++ "/collections/" ++ collectionName)
      {| method := None;
         headers := Some (request_headers (qdrantClient this) None);
         body := None |} in
  let sample (collectionName : string) : Event :=
    FetchCall (url (qdrantClient this) ++ "/collections/" ++ collectionName
               ++ "/points/scroll")
      {| method := Some "POST";
         headers := Some (request_headers (qdrantClient this) None);
         body := Some (JSON_stringify
                         (JObj [("limit", JNum (num_of_Z 5));
                                ("with_payload", JBool true);
                                ("with_vector", JBool false)])) |} in
  final = log
  \/ exists collectionName,
       spec_collection collection_name (defaultCollection this) = Some collectionName
       /\ (final = (log ++ [info collectionName])%list
           \/ final = (log ++ [info collectionName; sample collectionName])%list).
Proof.
  intros final info sample. unfold final. clear final.
  rewrite (handleDebug_resolved this).
  destruct (spec_collection collection_name (defaultCollection this)) as [c |];
    [| left; reflexivity].
  right. exists c. split; [reflexivity |].
  destruct (fetch (url (qdrantClient this) ++ collection_path c)
              (sent (qdrantClient this) no_options) w) as [[e | r1] w1] eqn:E1.
  { left. rewrite (inspect_first_fails this _ _ _ _ _ E1). reflexivity. }
  destruct (json_body r1) as [e | body] eqn:Hinfo.
  { left. rewrite (inspect_first_unparsed this _ _ _ _ _ _ E1 Hinfo). reflexivity. }
  destruct (fetch (url (qdrantClient this) ++ scroll_path c)
              (sent (qdrantClient this) scroll_options) w1) as [answer w2] eqn:E2.
  right. rewrite (inspect_second this _ _ _ _ _ _ _ _ E1 Hinfo E2). reflexivity.
Qed.

(** X10.  [handleDebug] never looks at the status of the two answers:
    whatever [ok], [status] and [statusText] say, the text it returns is
    built from the two parsed bodies alone.  An answer of the store that
    reports an error (a missing collection, say) is therefore rendered
    like a collection, not reported as a failure. *)
Theorem handleDebug_ignores_status
    (collection_name : option string) (collectionName : string)
    (w w1 w2 : world) (log : list Event) (r1 r2 : Response)
    (info sampleData : json num) :
  spec_collection collection_name (defaultCollection this) = Some collectionName ->
  fetch (url (qdrantClient this) ++ collection_path collectionName)
        (sent (qdrantClient this) no_options) w = (inr r1, w1) ->
  fetch (url (qdrantClient this) ++ scroll_path collectionName)
        (sent (qdrantClient this) scroll_options) w1 = (inr r2, w2) ->
  json_body r1 = inr info ->
  json_body r2 = inr sampleData ->
  fst (handleDebug this collection_name (w, log))
  = inr [match debugInfo collectionName info sampleData with
         | inr text => text
         | inl e => "Debug error: " ++ error_text e
         end].
Proof.
  intros Hname E1 E2 Hinfo Hsample.
  rewrite (handleDebug_resolved this), Hname.
  rewrite (inspect_second this _ _ _ _ _ _ _ _ E1 Hinfo E2). cbv beta iota. simpl fst.
  rewrite Hsample. destruct (debugInfo collectionName info sampleData); reflexivity.
Qed.


Lemma tool_collection_without_default (collection_name : option string) :
  present (defaultCollection this) = None ->
  spec_collection (tool_collection this collection_name) (defaultCollection this)
  = present collection_name.
Proof.
  unfold tool_collection, or_str, truthy_str, spec_collection, present.
  destruct (defaultCollection this) as [d |].
  - destruct (d =? "") eqn:Ed; [| discriminate]. intros _. simpl.
    destruct collection_name as [c |]; [| reflexivity].
    destruct (c =? ""); reflexivity.
  - intros _. destruct collection_name as [c |]; [| reflexivity].
    destruct (c =? ""); reflexivity.
Qed.

(** X12.  On a server without a default collection the registered tools
    work on the collection the caller names; a call that names none (or
    an empty one) is answered by each tool with the single text "Error:
    Collection name is required", and nothing is sent to the embedding
    provider or to the store. *)
Theorem registered_tools_without_default
    (information query : string) (metadata : option (json num))
    (vector_name : option VectorName) (collection_name : option string) (st : state) :
  present (defaultCollection this) = None ->
  (forall name,
     present collection_name = Some name ->
     qdrant_store this information metadata collection_name st
     = tool_result (store_into this name information metadata) st
     /\ qdrant_find this query vector_name collection_name st
        = tool_result (find_in this name query vector_name) st
     /\ qdrant_debug this collection_name st = inspect this name st)
  /\ (present collection_name = None ->
      qdrant_store this information metadata collection_name st
      = (inr ["Error: Collection name is required"], st)
      /\ qdrant_find this query vector_name collection_name st
         = (inr ["Error: Collection name is required"], st)
      /\ qdrant_debug this collection_name st
         = (inr ["Error: Collection name is required"], st)).
Proof.
  intros Hnone.
  assert (Hspec := tool_collection_without_default collection_name Hnone).
  split.
  - intros name Hname. rewrite Hname in Hspec.
    unfold qdrant_store, qdrant_find, qdrant_debug, tool_result, try_catch.
    rewrite (handleStore_resolved this _ _ _ _ _ Hspec),
      (handleFind_resolved this _ _ _ _ _ Hspec), (handleDebug_resolved this), Hspec.
    repeat split; try reflexivity.
    destruct (inspect_returns this name st) as (text & st' & -> & _). reflexivity.
  - intros Habsent. rewrite Habsent in Hspec.
    unfold qdrant_store, qdrant_find, qdrant_debug, tool_result, try_catch.
    unfold handleStore, handleFind, handleDebug, bind.
    rewrite resolve_collection_spec, Hspec. repeat split; reflexivity.
Qed.


End ServerBehaviour.

(** ** Startup, point ids and the rendering of hits *)

(** X14.  The constructor fails exactly when neither OPENAPI_API_KEY nor
    OPENAI_API_KEY holds a non-empty value, with the message "OpenAI API
    key is required (OPENAPI_API_KEY or OPENAI_API_KEY)".  Otherwise the
    server talks to QDRANT_URL, or to http://localhost:6333 when that
    variable is unset or empty, sends QDRANT_API_KEY as its key and has
    COLLECTION_NAME as its default collection. *)
Theorem new_QdrantMCPServer_startup (process_env : string -> option string) :
  match present (process_env "OPENAPI_API_KEY"), present (process_env "OPENAI_API_KEY") with
  | None, None =>
      new_QdrantMCPServer process_env
      = inl (Error "OpenAI API key is required (OPENAPI_API_KEY or OPENAI_API_KEY)")
  | _, _ =>
      exists server,
        new_QdrantMCPServer process_env = inr server
        /\ url (qdrantClient server)
           = match present (process_env "QDRANT_URL") with
             | Some address => address
             | None => "http://localhost:6333"
             end
        /\ apiKey (qdrantClient server) = process_env "QDRANT_API_KEY"
        /\ defaultCollection server = process_env "COLLECTION_NAME"
  end.
Proof.
  unfold new_QdrantMCPServer, or_str, or_default, truthy_str, present.
  destruct (process_env "OPENAPI_API_KEY") as [k1 |];
    [destruct (k1 =? "") eqn:E1 |];
    (destruct (process_env "OPENAI_API_KEY") as [k2 |];
     [destruct (k2 =? "") eqn:E2 |]);
    simpl; rewrite ?E1, ?E2; simpl; try reflexivity;
    (eexists; split; [reflexivity |]; simpl;
     split; [| split; reflexivity];
     destruct (process_env "QDRANT_URL") as [u |]; [| reflexivity];
     destruct (u =? ""); reflexivity).
Qed.

Lemma decimalZ_parses_back (z : Z) :
  option_map Z.of_int (NilZero.int_of_string (decimalZ z)) = Some z.
Proof.
  unfold decimalZ. rewrite NilZero.isi.
  - simpl. rewrite DecimalZ.of_to. reflexivity.
  - destruct z; simpl; try discriminate.
    intros [= E]. exact (DecimalPos.Unsigned.to_uint_nonnil _ E).
  - destruct z; simpl; try discriminate.
    intros [= E]. exact (DecimalPos.Unsigned.to_uint_nonnil _ E).
Qed.

Section PointIds.
Context `{R : JsRuntime} `{H : @Host R}.
Variable this : QdrantMCPServer.

(** X15.  The id of a stored point is the clock reading in decimal.
    When [handleStore] has embedded the information and the collection is
    provisioned, the one point it writes carries as its id a string that
    reads back as the number [Date.now()] returned at that moment, and
    the confirmation of a successful store ends with that same string.
    Nothing but the clock enters the id. *)
Theorem point_id_is_the_clock_reading
    (information : string) (metadata : option (json num))
    (collection_name : option string) (collectionName : string)
    (w w1 w2 w3 w4 : world) (log : list Event)
    (embedding : list num) (others : list (list num)) (created : Response)
    (now date : Z) :
  let points := url (qdrantClient this) ++ "/collections/" ++ collectionName ++ "/points" in
  let write (id : string) : RequestInit :=
    {| method := Some "PUT";
       headers := Some (request_headers (qdrantClient this) None);
       body := Some (JSON_stringify
                       (JObj [("points",
                               JArr [JObj [("id", JStr id);
                                           ("vector", JArr (map JNum embedding));
                                           ("payload",
                                            JObj (store_payload information
                                                    (Date_toISOString date) metadata))]])]))
    |} in
  spec_collection collection_name (defaultCollection this) = Some collectionName ->
  embeddings_create (embedding_model this) information w
  = (inr (embedding :: others), w1) ->
  fetch (url (qdrantClient this) ++ collection_path collectionName)
        (sent (qdrantClient this) (create_options (length embedding))) w1
  = (inr created, w2) ->
  ok created = true \/ status created = 409%Z ->
  Date_now w2 = (now, w3) ->
  Date_now w3 = (date, w4) ->
  exists id,
    option_map Z.of_int (NilZero.int_of_string id) = Some now
    /\ forall answer w5,
         fetch points (write id) w4 = (answer, w5) ->
         snd (snd (handleStore this information metadata collection_name (w, log)))
         = (log ++ [EmbeddingCall (embedding_model this) information;
                    request (qdrantClient this) (collection_path collectionName)
                      (create_options (length embedding));
                    FetchCall points (write id)])%list
         /\ (forall written,
               answer = inr written ->
               ok written = true ->
               fst (handleStore this information metadata collection_name (w, log))
               = inr ["Information stored successfully in collection '" ++ collectionName
                      ++ "' with ID: " ++ id]).
Proof.
  intros points write Hname Eembed Ecreate Haccepted Enow Edate.
  exists (decimalZ now). split; [apply decimalZ_parses_back |].
  intros answer w5 Ewrite.
  assert (Hrun :
    handleStore this information metadata collection_name (w, log)
    = (match answer with
       | inl e => inl e
       | inr written =>
           if negb (ok written)
           then inl (Error ("Failed to upsert points in collection '" ++ collectionName
                            ++ "': " ++ js_string (error_details written)))
           else inr [store_confirmation collectionName (decimalZ now)]
       end,
       (w5, (log ++ [EmbeddingCall (embedding_model this) information;
                     request (qdrantClient this) (collection_path collectionName)
                       (create_options (length embedding));
                     FetchCall points (write (decimalZ now))])%list))).
  { rewrite (handleStore_resolved this _ _ _ _ _ Hname).
    rewrite (store_into_embedded this _ _ _ _ _ _ _ _ Eembed). unfold bind at 1.
    rewrite (createCollection_run _ _ _ _ _ _ _ Ecreate). cbv beta iota.
    assert (Hacc : ok created || (status created =? 409)%Z = true).
    { destruct Haccepted as [-> | ->]; [reflexivity |].
      rewrite Z.eqb_refl. apply orb_true_r. }
    rewrite Hacc. cbv beta iota.
    unfold bind at 1, do_now at 1. rewrite Enow.
    unfold bind at 1, do_now at 1. rewrite Edate.
    unfold bind at 1.
    rewrite (upsertPoints_run _ _ _ _ _ _ _ Ewrite). cbv beta iota.
    rewrite <- !app_assoc.
    destruct answer as [e | written]; [reflexivity |].
    destruct (negb (ok written)); reflexivity. }
  rewrite Hrun. split; [reflexivity |].
  intros written -> Hok. simpl fst. rewrite Hok. reflexivity.
Qed.

End PointIds.

Section HitRendering.
Context `{R : JsRuntime} `{H : @Host R}.
Variable this : QdrantMCPServer.

Lemma map_from_after_hits (before : list (json num)) (hits : list (num * json num)) :
  Forall2 is_hit before hits ->
  forall index rest,
    map_from this index (before ++ rest)
    = match map_from this (index + length before) rest with
      | inl e => inl e
      | inr texts => inr (hit_texts this index hits ++ texts)%list
      end.
Proof.
  induction 1 as [| result [score payload] before hits Hhit _ IH]; intros index rest; simpl.
  - rewrite Nat.add_0_r. destruct (map_from this index rest); reflexivity.
  - rewrite (format_result_hit this _ _ _ _ Hhit), IH.
    replace (S index + length before) with (index + S (length before)) by lia.
    destruct (map_from this (index + S (length before)) rest); reflexivity.
Qed.

(** X16.  The messages of [handleFind] are all or nothing: when one
    result cannot be rendered, the error of that result is the outcome
    of the whole call, and the results rendered before it are dropped.
    A result that is [null] cannot be rendered, nor can one whose score
    is a non-empty string. *)
Theorem malformed_hit_fails_whole_find
    (query : string) (before after : list (json num)) (hits : list (num * json num))
    (bad : json num) (e : exn) (st : state) :
  Forall2 is_hit before hits ->
  format_result this bad (length before) = inl e ->
  found_texts this query (JArr (before ++ bad :: after)) st = (inl e, st)
  /\ (forall index,
        format_result this JNull index
        = inl (TypeError "Cannot read properties of null (reading 'score')"))
  /\ (forall fields text index,
        assoc "score" fields = Some (JStr text) ->
        text <> "" ->
        format_result this (JObj fields) index
        = inl (TypeError "score.toFixed is not a function")).
Proof.
  intros Hhits Hbad. split; [| split].
  - unfold found_texts.
    assert (Hlength : length_is_zero (JArr (before ++ bad :: after)) = false).
    { unfold length_is_zero. rewrite length_app. simpl.
      rewrite Nat.add_succ_r. reflexivity. }
    rewrite Hlength. unfold bind, lift, formattedResults.
    rewrite (map_from_after_hits _ _ Hhits 0 (bad :: after)). simpl.
    rewrite Hbad. reflexivity.
  - intros index. reflexivity.
  - intros fields text index Hscore Htext.
    unfold format_result, get. rewrite Hscore.
    unfold score_of, or_else, if_truthy, truthy.
    apply String.eqb_neq in Htext. rewrite Htext. simpl.
    destruct (assoc "payload" fields); reflexivity.
Qed.

(** A result that carries no score, or a falsy one, is rendered
    with the score 0; one that carries no payload, or a falsy one, is
    rendered with the empty object as its payload. *)
Theorem missing_score_and_payload_defaults
    (fields : list (string * json num)) (index : nat) :
  if_truthy (assoc "score" fields) = None ->
  format_result this (JObj fields) index
  = inr (result_text this index (num_of_Z 0)
           (match if_truthy (assoc "payload" fields) with
            | Some payload => payload
            | None => JObj []
            end)).
Proof.
  intros Hscore. unfold format_result, get, score_of, payload_of, or_else.
  rewrite Hscore. reflexivity.
Qed.

End HitRendering.

Section ServerBehaviourRuns.
Import IntegerRuntime Mock Scenes.


(** A second store into the collection C: the provisioning meets the
    conflict, and the point is written all the same. *)
Lemma handleStore_into_existing_collection_run :
  handleStore (H := host) (server_with None) "hello" None (Some "C")
    (existing_collection, [])
  = (inr ["Information stored successfully in collection 'C' with ID: 1700000000000"],
     ({| replies := []; vectors := []; time := 1700000000002 |},
      [EmbeddingCall "text-embedding-3-small" "hello";
       request (qdrantClient (server_with None)) (collection_path "C") (create_options 3);
       request (qdrantClient (server_with None)) (points_path "C")
         (upsert_options
            [store_point (decimalZ 1700000000000) [1; 2; 3]%Z
               (store_payload "hello" (Date_toISOString 1700000000001) None)])])).
Proof.
  exact (handleStore_into_existing_collection (H := host) (server_with None)
           "hello" None (Some "C") "C" existing_collection _ _ _ _ _ []
           [1; 2; 3]%Z [] conflict_answer _ 1700000000000%Z 1700000000001%Z
           eq_refl eq_refl eq_refl (or_intror eq_refl) eq_refl eq_refl eq_refl eq_refl).
Defined.

(** The first store into the collection C: the id is the clock reading
    1700000000000. *)
Lemma point_id_run :
  exists id,
    option_map Z.of_int (NilZero.int_of_string id) = Some 1700000000000%Z
    /\ fst (handleStore (H := host) (server_with None) "hello" None (Some "C")
              (first_store, []))
       = inr ["Information stored successfully in collection 'C' with ID: " ++ id].
Proof.
  destruct (point_id_is_the_clock_reading (H := host) (server_with None)
              "hello" None (Some "C") "C" first_store _ _ _ _ [] [1; 2; 3]%Z [] _
              1700000000000%Z 1700000000001%Z
              eq_refl eq_refl eq_refl (or_introl eq_refl) eq_refl eq_refl)
    as (id & Hparse & Hrun).
  exists id. split; [exact Hparse |].
  destruct (Hrun _ _ eq_refl) as [_ Hstored].
  exact (Hstored _ eq_refl eq_refl).
Defined.

(** Inspecting a collection the store does not know: both answers are
    404, and the tool still renders them. *)
Lemma handleDebug_not_found_run :
  fst (handleDebug (H := host) (server_with None) (Some "C") (not_found, []))
  = inr ["Collection Info for " ++ dquote ++ "C" ++ dquote ++ ":" ++ nl
         ++ "undefined" ++ nl ++ nl ++ "Sample Data (first 0 points):" ++ nl].
Proof.
  exact (handleDebug_ignores_status (H := host) (server_with None) (Some "C") "C"
           not_found _ _ [] _ _ _ _ eq_refl eq_refl eq_refl eq_refl eq_refl).
Defined.


(** Without a default collection: the named collection is used, and a
    call without a name is answered with the error text at once. *)
Lemma registered_tools_without_default_run :
  qdrant_debug (H := host) (server_with None) (Some "notes") (silent, [])
  = inspect (server_with None) "notes" (silent, [])
  /\ qdrant_store (H := host) (server_with None) "hello" None None (first_store, [])
     = (inr ["Error: Collection name is required"], (first_store, [])).
Proof.
  split.
  - exact (proj2 (proj2 (proj1 (registered_tools_without_default (H := host)
                                  (server_with None) "" "" None None (Some "notes")
                                  (silent, []) eq_refl)
                           "notes" eq_refl))).
  - exact (proj1 (proj2 (registered_tools_without_default (H := host)
                           (server_with None) "hello" "" None None None
                           (first_store, []) eq_refl)
                    eq_refl)).
Defined.


(** Started with OPENAI_API_KEY only: the server talks to the local store
    and has no default collection. *)
Lemma new_QdrantMCPServer_startup_run :
  exists server,
    new_QdrantMCPServer minimal_env = inr server
    /\ url (qdrantClient server) = "http://localhost:6333"
    /\ apiKey (qdrantClient server) = None
    /\ defaultCollection server = None.
Proof.
  exact (new_QdrantMCPServer_startup minimal_env).
Defined.

(** A [null] among the results, after a good hit. *)
Lemma malformed_hit_run :
  found_texts (H := host) (server_with None) "test" (JArr ([test_hit] ++ JNull :: []))
    (silent, [])
  = (inl (TypeError "Cannot read properties of null (reading 'score')"), (silent, [])).
Proof.
  assert (Hhits : Forall2 (is_hit (R := runtime)) [test_hit]
                    [(1%Z, JObj [("information", JStr "test information")])]).
  { constructor; [| constructor].
    exists [("id", JStr "1"); ("score", JNum 1%Z);
            ("payload", JObj [("information", JStr "test information")])].
    repeat split. }
  exact (proj1 (malformed_hit_fails_whole_find (H := host) (server_with None) "test"
                  [test_hit] [] _ JNull _ (silent, []) Hhits eq_refl)).
Defined.

(** A result that is only an id. *)
Lemma missing_score_run :
  format_result (R := runtime) (server_with None) (JObj [("id", JNum 7%Z)]) 0
  = inr ("Result 1 (Score: 0.0000):" ++ nl ++ "Detail: {}" ++ nl).
Proof.
  exact (missing_score_and_payload_defaults (R := runtime) (server_with None)
           [("id", JNum 7%Z)] 0 eq_refl).
Defined.

End ServerBehaviourRuns.
